(** * EmployeeDashboard: the sheet-backed record store

    A shallow embedding of [src/lib/google-sheets.ts] (the record mapper and
    the record store) and of the [POST /api/projects/add] route handler,
    followed by the properties of the specification that concern them.

    Conventions.
    - A JavaScript string is the sequence of its code units; the model keeps
      the code units below 256, which is Rocq's [string].
    - [undefined] is [None]; a value of type [T | undefined] is [option T].
    - A JavaScript number is [NaN] or an integer ([JS.Num]); the integers are
      kept exact, which agrees with IEEE doubles on the safe integers
      (magnitude at most 2^53).  The completion rate, the only quotient of
      the program, is computed in [Q].
    - Asynchronous calls are sequenced: every [await] is a monadic bind over
      the state of the remote spreadsheet. *)

From Stdlib Require Import ZArith QArith Lia Bool.
From Stdlib Require Import Ascii String Decimal DecimalString DecimalPos.
From stdpp Require Import base list strings gmap.

Local Open Scope string_scope.
Local Open Scope Z_scope.

(** ** The fragment of JavaScript the program relies on *)

Module JS.

(** Truthiness of a [string | undefined]: absent and empty are falsy. *)
Definition truthy (o : option string) : bool :=
  match o with
  | Some s => negb (String.eqb s "")
  | None => false
  end.

(** [o || d] at type [string | undefined]. *)
Definition or_else (o : option string) (d : string) : string :=
  match o with
  | Some s => if String.eqb s "" then d else s
  | None => d
  end.

(** StrWhiteSpaceChar (WhiteSpace and LineTerminator) below code unit 256:
    TAB, LF, VT, FF, CR, SP and NBSP. *)
Definition isWhiteSpace (c : ascii) : bool :=
  let n := nat_of_ascii c in
  (n =? 9)%nat || (n =? 10)%nat || (n =? 11)%nat || (n =? 12)%nat
  || (n =? 13)%nat || (n =? 32)%nat || (n =? 160)%nat.

Fixpoint trimStart (s : string) : string :=
  match s with
  | String c r => if isWhiteSpace c then trimStart r else s
  | EmptyString => EmptyString
  end.

(** [trimEnd], by one right-to-left pass: a white-space character is
    dropped when everything after it has been dropped. *)
Fixpoint trimEnd (s : string) : string :=
  match s with
  | String c r =>
      match trimEnd r with
      | EmptyString => if isWhiteSpace c then EmptyString else String c EmptyString
      | r' => String c r'
      end
  | EmptyString => EmptyString
  end.

(** [String.prototype.trim]. *)
Definition trim (s : string) : string := trimEnd (trimStart s).

(** Numbers, as far as the program produces them. *)
Inductive Num : Type :=
| NaN
| Int (z : Z).

Definition isNaN (x : Num) : bool :=
  match x with NaN => true | Int _ => false end.

(** [x < 0]; every comparison with [NaN] is false. *)
Definition ltZero (x : Num) : bool :=
  match x with NaN => false | Int z => z <? 0 end.

(** The value of a character as a digit in radix at most 36. *)
Definition digitValue (c : ascii) : option Z :=
  let n := Z.of_nat (nat_of_ascii c) in
  if (48 <=? n) && (n <=? 57) then Some (n - 48)
  else if (97 <=? n) && (n <=? 122) then Some (n - 87)
  else if (65 <=? n) && (n <=? 90) then Some (n - 55)
  else None.

Definition radixDigit (R : Z) (c : ascii) : option Z :=
  match digitValue c with
  | Some d => if d <? R then Some d else None
  | None => None
  end.

(** The mathematical value of the longest prefix of [s] made of radix-[R]
    digits, on top of the digits [acc] already read; [None] when no digit
    was read at all. *)
Fixpoint readDigits (R : Z) (s : string) (acc : option Z) : option Z :=
  match s with
  | String c r =>
      match radixDigit R c with
      | Some d => readDigits R r (Some (default 0 acc * R + d))
      | None => acc
      end
  | EmptyString => acc
  end.

(** The sign in front of the digits and what follows it. *)
Definition signOf (s : string) : Z * string :=
  match s with
  | String c r =>
      if Ascii.eqb c "-" then (-1, r)
      else if Ascii.eqb c "+" then (1, r)
      else (1, s)
  | EmptyString => (1, s)
  end.

(** The radix, 16 after a [0x] or [0X] prefix and 10 otherwise, and what
    follows the prefix. *)
Definition radixOf (s : string) : Z * string :=
  match s with
  | String c (String x r) =>
      if Ascii.eqb c "0" && (Ascii.eqb x "x" || Ascii.eqb x "X")
      then (16, r) else (10, s)
  | _ => (10, s)
  end.

(** [parseInt(s)] with the radix left undefined (ECMA-262, 19.2.5): leading
    white space is skipped, a sign is read, a [0x]/[0X] prefix selects
    radix 16, and the longest prefix of digits is the result; [NaN] when
    there is none.  [-0] is identified with [0]. *)
Definition parseInt (s : string) : Num :=
  let '(sign, S1) := signOf (trimStart s) in
  let '(R, S2) := radixOf S1 in
  match readDigits R S2 None with
  | Some m => Int (sign * m)
  | None => NaN
  end.

(** [Number.prototype.toString] on [NaN] and on the integers. *)
Definition Number_toString (x : Num) : string :=
  match x with
  | NaN => "NaN"
  | Int z => NilZero.string_of_int (Z.to_int z)
  end.

(** [Array.prototype.findIndex]: the first index whose element satisfies
    [p], and [-1] when there is none. *)
Fixpoint findIndex {A : Type} (p : A -> bool) (l : list A) : Z :=
  match l with
  | [] => -1
  | x :: r =>
      if p x then 0
      else let i := findIndex p r in if i <? 0 then -1 else i + 1
  end.

(** A point in time, by its UTC fields. *)
Record Date : Type := mkDate {
  year : Z; month : Z; day : Z;
  hours : Z; minutes : Z; seconds : Z; milliseconds : Z
}.

(** The character of the last decimal digit of [n]. *)
Definition digitChar (n : Z) : ascii :=
  ascii_of_nat (Z.to_nat (48 + n mod 10)).

Definition pad2 (n : Z) : string :=
  String (digitChar (n / 10)) (String (digitChar n) "").
Definition pad3 (n : Z) : string :=
  String (digitChar (n / 100)) (pad2 n).
Definition pad4 (n : Z) : string :=
  String (digitChar (n / 1000)) (pad3 n).
Definition pad6 (n : Z) : string :=
  String (digitChar (n / 100000)) (String (digitChar (n / 10000)) (pad4 n)).

(** [Date.prototype.toISOString], from year 0 on:
    [YYYY-MM-DDTHH:mm:ss.sssZ], the year written with a sign and six digits
    when it is beyond 9999. *)
Definition toISOString (d : Date) : string :=
  (if year d <=? 9999 then pad4 (year d) else "+" ++ pad6 (year d))
  ++ "-" ++ pad2 (month d) ++ "-" ++ pad2 (day d) ++ "T"
  ++ pad2 (hours d) ++ ":" ++ pad2 (minutes d) ++ ":" ++ pad2 (seconds d)
  ++ "." ++ pad3 (milliseconds d) ++ "Z".

(** [s.split('T')[0]]: the part of [s] before its first [T]. *)
Fixpoint beforeT (s : string) : string :=
  match s with
  | String c r => if Ascii.eqb c "T" then "" else String c (beforeT r)
  | EmptyString => EmptyString
  end.

(** [new Date().toISOString().split('T')[0]], the clock reading [now]. *)
Definition isoDate (now : Date) : string := beforeT (toISOString now).

End JS.


(** ** The record mapper *)

(** [ProjectEntry].  The two literal-union fields [status] and [priority]
    are strings at run time: the mapper casts the cell without checking. *)
Record ProjectEntry : Type := mkProjectEntry {
  email : string;
  name : string;
  projectTitle : string;
  projectDescription : string;
  status : string;
  deadline : string;
  lastUpdated : string;
  priority : string;
  department : option string;
  estimatedHours : option JS.Num;
  actualHours : option JS.Num;
  notes : option string
}.

(** [Partial<ProjectEntry>]: every field may be absent. *)
Record PartialEntry : Type := mkPartialEntry {
  p_email : option string;
  p_name : option string;
  p_projectTitle : option string;
  p_projectDescription : option string;
  p_status : option string;
  p_deadline : option string;
  p_lastUpdated : option string;
  p_priority : option string;
  p_department : option string;
  p_estimatedHours : option JS.Num;
  p_actualHours : option JS.Num;
  p_notes : option string
}.

(** A [ProjectEntry] used where a [Partial<ProjectEntry>] is expected. *)
Definition asPartial (p : ProjectEntry) : PartialEntry :=
  {| p_email := Some (email p);
     p_name := Some (name p);
     p_projectTitle := Some (projectTitle p);
     p_projectDescription := Some (projectDescription p);
     p_status := Some (status p);
     p_deadline := Some (deadline p);
     p_lastUpdated := Some (lastUpdated p);
     p_priority := Some (priority p);
     p_department := department p;
     p_estimatedHours := estimatedHours p;
     p_actualHours := actualHours p;
     p_notes := notes p |}.

(** A row of the sheet as [values.get] returns it: the cells that are
    present, in column order. *)
Abbreviation Row := (list string).

(** [row[i] ? parseInt(row[i]) : undefined]. *)
Definition numericCell (c : option string) : option JS.Num :=
  if JS.truthy c then Some (JS.parseInt (default "" c)) else None.

(** The callback of [rows.map] in [getAllProjects]. *)
Definition rowToRecord (row : Row) : ProjectEntry :=
  {| email := JS.or_else (row !! 0%nat) "";
     name := JS.or_else (row !! 1%nat) "";
     projectTitle := JS.or_else (row !! 2%nat) "";
     projectDescription := JS.or_else (row !! 3%nat) "";
     status := JS.or_else (row !! 4%nat) "Not Started";
     deadline := JS.or_else (row !! 5%nat) "";
     lastUpdated := JS.or_else (row !! 6%nat) "";
     priority := JS.or_else (row !! 7%nat) "Medium";
     department := Some (JS.or_else (row !! 8%nat) "");
     estimatedHours := numericCell (row !! 9%nat);
     actualHours := numericCell (row !! 10%nat);
     notes := Some (JS.or_else (row !! 11%nat) "") |}.

(** The callback of [rows.filter] in [getAllProjects]:
    [row.length > 0 && row[0]]. *)
Definition keepRow (row : Row) : bool :=
  (0 <? length row)%nat && JS.truthy (row !! 0%nat).

(** [x?.toString() || ""]. *)
Definition hoursCell (x : option JS.Num) : string :=
  JS.or_else (JS.Number_toString <$> x) "".

(** The array literal [rowData] of [addOrUpdateProject].  The cells of
    [email] and [projectTitle] are the fields themselves and are [undefined]
    when the field is; the other ten are always strings. *)
Definition recordToRow (now : JS.Date) (projectData : PartialEntry)
  : list (option string) :=
  [ p_email projectData;
    Some (JS.or_else (p_name projectData) "");
    p_projectTitle projectData;
    Some (JS.or_else (p_projectDescription projectData) "");
    Some (JS.or_else (p_status projectData) "Not Started");
    Some (JS.or_else (p_deadline projectData) "");
    Some (JS.isoDate now);
    Some (JS.or_else (p_priority projectData) "Medium");
    Some (JS.or_else (p_department projectData) "");
    Some (hoursCell (p_estimatedHours projectData));
    Some (hoursCell (p_actualHours projectData));
    Some (JS.or_else (p_notes projectData) "") ].

(** ** The remote spreadsheet *)

(** [sheet.properties] of a worksheet. *)
Record SheetProperties : Type := mkSheetProperties {
  title : option string;
  sheetId : option Z
}.

(** The requests the store sends. *)
Inductive Call : Type :=
| spreadsheets_get
| values_get (range : string)
| values_update (range : string) (values : list (option string))
| values_append (range : string) (values : list (option string))
| batchUpdate_deleteDimension (sheet startIndex endIndex : Z).

(** Whether a request changes the spreadsheet. *)
Definition isMutation (c : Call) : bool :=
  match c with
  | spreadsheets_get | values_get _ => false
  | _ => true
  end.

(** The state the program runs against. *)
Record World : Type := mkWorld {
  keyFile : bool;                 (* the service-account client can be built *)
  sheets : list SheetProperties;  (* [spreadsheet.data.sheets] *)
  rows : list Row;                (* first worksheet, from row 2 downward *)
  calls : list Call               (* requests issued so far, oldest first *)
}.

(** What the store throws: the errors it raises itself, with their
    messages, and the failure of a request, which is the client library's. *)
Inductive Error : Type :=
| ClientInitFailed       (* Google Sheets API initialization failed: ... *)
| RequestFailed (c : Call)
| NoSheetsFound          (* No sheets found in the spreadsheet *)
| EmailAndTitleRequired  (* Email and project title are required *)
| ProjectNotFound.       (* Project not found *)

Inductive Result (A : Type) : Type :=
| Returned (a : A)
| Thrown (e : Error).
Arguments Returned {A} a.
Arguments Thrown {A} e.

(** Computations over the world that return or throw. *)
Definition M (A : Type) : Type := World -> Result A * World.

#[global] Instance M_ret : MRet M := fun A a w => (Returned a, w).

#[global] Instance M_bind : MBind M := fun A B f m w =>
  match m w with
  | (Returned a, w') => f a w'
  | (Thrown e, w') => (Thrown e, w')
  end.

Definition throw {A : Type} (e : Error) : M A := fun w => (Thrown e, w).

(** Reading the world. *)
Definition gets {A : Type} (f : World -> A) : M A := fun w => (Returned (f w), w).

(** [try { m } catch (error) { h }]. *)
Definition try_catch {A : Type} (m : M A) (h : Error -> M A) : M A := fun w =>
  match m w with
  | (Returned a, w') => (Returned a, w')
  | (Thrown e, w') => h e w'
  end.

(** Writing one row of values over an existing row: a value replaces the
    cell, [undefined] (sent as [null]) leaves it, cells to the right of the
    values stay. *)
Fixpoint overwrite (values : list (option string)) (old : Row) : Row :=
  match values with
  | [] => old
  | v :: values' => default (hd "" old) v :: overwrite values' (tl old)
  end.

(** The effect of an update of sheet row [rowNumber]; rows are numbered from
    1 and [rows] starts at row 2.  Writing below the last row extends the
    sheet with blank rows. *)
Definition writeRow (rowNumber : Z) (values : list (option string))
    (rs : list Row) : list Row :=
  let i := Z.to_nat (rowNumber - 2) in
  take i rs ++ replicate (i - length rs)%nat []
    ++ overwrite values (default [] (rs !! i)) :: drop (S i) rs.

(** The effect of an append with [INSERT_ROWS]: one row after the last. *)
Definition appendRow (values : list (option string)) (rs : list Row)
  : list Row :=
  rs ++ [overwrite values []].

(** The effect of deleting the sheet rows of 0-based index [startIndex]
    (included) to [endIndex] (excluded); [startIndex] is at least 1 here. *)
Definition deleteRows (startIndex endIndex : Z) (rs : list Row) : list Row :=
  take (Z.to_nat (startIndex - 1)) rs ++ drop (Z.to_nat (endIndex - 1)) rs.

(** ** The record store *)

Section Store.

(** Availability of the remote service: [up n] tells whether the request
    issued after [n] earlier ones is answered.  A request that is not
    answered throws and changes nothing. *)
Variable up : nat -> bool.

(** [new Date(deadline) < today], the reading of a deadline against the
    clock, which the engine's date parser decides. *)
Variable deadlinePassed : string -> bool.

(** One request: it is logged, and takes effect when it is answered. *)
Definition request (c : Call) (eff : list Row -> list Row) : M unit := fun w =>
  let w' := {| keyFile := keyFile w; sheets := sheets w;
               rows := rows w; calls := calls w ++ [c] |} in
  if up (length (calls w))
  then (Returned tt,
        {| keyFile := keyFile w; sheets := sheets w;
           rows := eff (rows w); calls := calls w ++ [c] |})
  else (Thrown (RequestFailed c), w').

(** [getGoogleSheetsClient()]. *)
Definition getGoogleSheetsClient : M unit := fun w =>
  if keyFile w then (Returned tt, w) else (Thrown ClientInitFailed, w).

(** [await sheets.spreadsheets.get(...)], then [spreadsheet.data.sheets?.[0]]
    with the throw that follows when there is none. *)
Definition firstSheet : M SheetProperties :=
  _ ← request spreadsheets_get id;
  found ← gets sheets;
  match found with
  | sheet :: _ => mret sheet
  | [] => throw NoSheetsFound
  end.

(** [sheet.properties?.title || "Sheet1"]. *)
Definition sheetNameOf (sheet : SheetProperties) : string :=
  JS.or_else (title sheet) "Sheet1".

(** [await sheets.spreadsheets.values.get(...)] on [A2:Z1000], then
    [response.data.values || []]: the rows 2 to 1000, columns A to Z. *)
Definition readValues (sheetName : string) : M (list Row) :=
  _ ← request (values_get (sheetName ++ "!A2:Z1000")) id;
  gets (fun w => take 26 <$> take 999 (rows w)).

Definition getAllProjects : M (list ProjectEntry) :=
  try_catch
    (_ ← getGoogleSheetsClient;
     sheet ← firstSheet;
     let sheetName := sheetNameOf sheet in
     values ← readValues sheetName;
     mret (rowToRecord <$> List.filter keepRow values))
    (fun _ => mret []).

Definition getUserProjects (userEmail : string) : M (list ProjectEntry) :=
  try_catch
    (allProjects ← getAllProjects;
     mret (List.filter (fun project => String.eqb (email project) userEmail)
             allProjects))
    (fun error => throw error).

(** [project.email === projectData.email &&
     project.projectTitle === projectData.projectTitle]. *)
Definition sameKey (projectData : PartialEntry) (project : ProjectEntry)
  : bool :=
  bool_decide (Some (email project) = p_email projectData)
  && bool_decide (Some (projectTitle project) = p_projectTitle projectData).

(** The decimal form of a row number inside a range. *)
Definition rowLabel (rowNumber : Z) : string :=
  JS.Number_toString (JS.Int rowNumber).

Definition addOrUpdateProject (now : JS.Date) (projectData : PartialEntry)
  : M unit :=
  try_catch
    (_ ← getGoogleSheetsClient;
     sheet ← firstSheet;
     let sheetName := sheetNameOf sheet in
     if negb (JS.truthy (p_email projectData))
        || negb (JS.truthy (p_projectTitle projectData))
     then throw EmailAndTitleRequired
     else
       allProjects ← getAllProjects;
       let existingProjectIndex :=
         JS.findIndex (sameKey projectData) allProjects in
       let rowData := recordToRow now projectData in
       if 0 <=? existingProjectIndex then
         let rowNumber := existingProjectIndex + 2 in
         request
           (values_update
              (sheetName ++ "!A" ++ rowLabel rowNumber
                 ++ ":Z" ++ rowLabel rowNumber) rowData)
           (writeRow rowNumber rowData)
       else
         request (values_append (sheetName ++ "!A:Z") rowData)
           (appendRow rowData))
    (fun error => throw error).

Definition deleteProject (userEmail projectTitle' : string) : M unit :=
  try_catch
    (_ ← getGoogleSheetsClient;
     sheet ← firstSheet;
     let sheetId_ := default 0 (sheetId sheet) in
     allProjects ← getAllProjects;
     let projectIndex :=
       JS.findIndex
         (fun project => String.eqb (email project) userEmail
                         && String.eqb (projectTitle project) projectTitle')
         allProjects in
     if projectIndex =? -1 then throw ProjectNotFound
     else
       let rowNumber := projectIndex + 2 in
       request
         (batchUpdate_deleteDimension sheetId_ (rowNumber - 1) rowNumber)
         (deleteRows (rowNumber - 1) rowNumber))
    (fun error => throw error).

(** The object [getProjectStats] returns. *)
Record ProjectStats : Type := mkProjectStats {
  totalProjects : nat;
  completedProjects : nat;
  inProgressProjects : nat;
  notStartedProjects : nat;
  onHoldProjects : nat;
  overdueProjects : nat;
  departmentStats : gmap string nat;
  priorityStats : gmap string nat;
  completionRate : Q
}.

(** [projects.filter(p => p.status === s).length]. *)
Definition countStatus (s : string) (projects : list ProjectEntry) : nat :=
  length (List.filter (fun p => String.eqb (status p) s) projects).

(** [acc[k] = (acc[k] || 0) + 1]. *)
Definition bump (k : string) (acc : gmap string nat) : gmap string nat :=
  <[k := (default 0 (acc !! k) + 1)%nat]> acc.

(** The statistics of a list of projects: the body of [getProjectStats]
    after the read. *)
Definition statsOf (projects : list ProjectEntry) : ProjectStats :=
  let totalProjects := length projects in
  let completedProjects := countStatus "Completed" projects in
  {| totalProjects := totalProjects;
     completedProjects := completedProjects;
     inProgressProjects := countStatus "In Progress" projects;
     notStartedProjects := countStatus "Not Started" projects;
     onHoldProjects := countStatus "On Hold" projects;
     overdueProjects :=
       length (List.filter
                 (fun p =>
                    if String.eqb (status p) "Completed"
                       || negb (JS.truthy (Some (deadline p)))
                    then false
                    else deadlinePassed (deadline p))
                 projects);
     departmentStats :=
       fold_left
         (fun acc project =>
            bump (JS.or_else (department project) "Unassigned") acc)
         projects ∅;
     priorityStats :=
       fold_left (fun acc project => bump (priority project) acc) projects ∅;
     completionRate :=
       if (0 <? totalProjects)%nat
       then ((inject_Z (Z.of_nat completedProjects)
              / inject_Z (Z.of_nat totalProjects)) * 100)%Q
       else 0%Q |}.

Definition getProjectStats : M ProjectStats :=
  try_catch
    (projects ← getAllProjects;
     mret (statsOf projects))
    (fun error => throw error).

End Store.

(** ** The route [POST /api/projects/add] *)

(** [session.user], with the role the sign-in callback attached. *)
Record SessionUser : Type := mkSessionUser {
  user_email : option string;
  user_name : option string;
  user_role : string
}.

(** What the handler answers: a JSON error with its HTTP status, its text
    and, for status 500, the error caught, whose message is the [details];
    or the success object. *)
Inductive Response : Type :=
| ErrorResponse (httpStatus : Z) (error : string) (details : option Error)
| SuccessResponse (savedTitle : string).

Definition validStatuses : list string :=
  ["Not Started"; "In Progress"; "Completed"; "On Hold"].
Definition validPriorities : list string := ["Low"; "Medium"; "High"].

(** [list.includes(s)]. *)
Definition includes (l : list string) (s : string) : bool :=
  existsb (String.eqb s) l.

(** [x !== undefined && (isNaN(x) || x < 0)]. *)
Definition badHours (x : option JS.Num) : bool :=
  match x with
  | Some n => JS.isNaN n || JS.ltZero n
  | None => false
  end.

(** [projectData] after the two assignments of the employee branch. *)
Definition forceIdentity (userEmail : string) (user : SessionUser)
    (projectData : PartialEntry) : PartialEntry :=
  {| p_email := Some userEmail;
     p_name := Some (JS.or_else (user_name user) "");
     p_projectTitle := p_projectTitle projectData;
     p_projectDescription := p_projectDescription projectData;
     p_status := p_status projectData;
     p_deadline := p_deadline projectData;
     p_lastUpdated := p_lastUpdated projectData;
     p_priority := p_priority projectData;
     p_department := p_department projectData;
     p_estimatedHours := p_estimatedHours projectData;
     p_actualHours := p_actualHours projectData;
     p_notes := p_notes projectData |}.

Section Route.

Variable up : nat -> bool.

(** [!isNaN(new Date(deadline).getTime())], decided by the engine's date
    parser. *)
Variable parsesAsDate : string -> bool.

(** The checks that follow the identity check: status, priority, deadline
    and hours.  [inr] carries the record handed to [addOrUpdateProject]. *)
Definition validate (projectData : PartialEntry) : Response + PartialEntry :=
  if JS.truthy (p_status projectData)
     && negb (includes validStatuses (default "" (p_status projectData)))
  then inl (ErrorResponse 400
              "Invalid status. Must be one of: Not Started, In Progress, Completed, On Hold"
              None)
  else if JS.truthy (p_priority projectData)
          && negb (includes validPriorities
                     (default "" (p_priority projectData)))
  then inl (ErrorResponse 400
              "Invalid priority. Must be one of: Low, Medium, High" None)
  else if JS.truthy (p_deadline projectData)
          && negb (parsesAsDate (default "" (p_deadline projectData)))
  then inl (ErrorResponse 400
              "Invalid deadline format. Please use YYYY-MM-DD" None)
  else if badHours (p_estimatedHours projectData)
  then inl (ErrorResponse 400
              "Estimated hours must be a positive number" None)
  else if badHours (p_actualHours projectData)
  then inl (ErrorResponse 400 "Actual hours must be a positive number" None)
  else inr projectData.

(** The handler up to the call of [addOrUpdateProject]: the response it
    returns early, or the record it goes on to save. *)
Definition screen (session : option SessionUser) (body : PartialEntry)
  : Response + PartialEntry :=
  match session with
  | None => inl (ErrorResponse 401 "Authentication required" None)
  | Some user =>
      if negb (JS.truthy (user_email user))
      then inl (ErrorResponse 401 "Authentication required" None)
      else
        let projectData := body in
        let userRole := user_role user in
        let userEmail := default "" (user_email user) in
        if negb (JS.truthy (JS.trim <$> p_projectTitle projectData))
        then inl (ErrorResponse 400 "Project title is required" None)
        else if negb (String.eqb userRole "hr")
        then
          if JS.truthy (p_email projectData)
             && negb (bool_decide (p_email projectData = Some userEmail))
          then inl (ErrorResponse 403
                      "You can only update your own projects" None)
          else validate (forceIdentity userEmail user projectData)
        else validate projectData
  end.

Definition POST (now : JS.Date) (session : option SessionUser)
    (body : PartialEntry) : M Response :=
  match screen session body with
  | inl response => mret response
  | inr projectData =>
      try_catch
        (_ ← addOrUpdateProject up now projectData;
         mret (SuccessResponse (default "" (p_projectTitle projectData))))
        (fun error =>
           mret (ErrorResponse 500 "Failed to save project" (Some error)))
  end.

End Route.

(** ** Specification vocabulary *)

(** [c] is one of the characters [0] to [9]. *)
Definition isDecimalDigit (c : ascii) : bool :=
  let n := nat_of_ascii c in (48 <=? n)%nat && (n <=? 57)%nat.

(** A cell is numeric when, after leading white space and a sign, it starts
    with a decimal digit. *)
Definition startsWithNumber (s : string) : bool :=
  match snd (JS.signOf (JS.trimStart s)) with
  | String c _ => isDecimalDigit c
  | EmptyString => false
  end.

(** The shape [YYYY-MM-DD]: ten characters, digits around two dashes. *)
Definition isYMD (s : string) : bool :=
  match list_ascii_of_string s with
  | [y1; y2; y3; y4; d1; m1; m2; d2; a1; a2] =>
      forallb isDecimalDigit [y1; y2; y3; y4; m1; m2; a1; a2]
      && Ascii.eqb d1 "-" && Ascii.eqb d2 "-"
  | _ => false
  end.

(** A row sent through the mapper and back, at clock reading [now]. *)
Definition roundTrip (now : JS.Date) (row : Row) : list (option string) :=
  recordToRow now (asPartial (rowToRecord row)).

(** The identity of a record and of the row that stores it. *)
Definition keyOf (p : ProjectEntry) : string * string :=
  (email p, projectTitle p).
Definition rowKey (row : Row) : string * string := keyOf (rowToRecord row).

(** At most one row per (email, projectTitle). *)
Definition uniqueKeys (rs : list Row) : Prop := NoDup (rowKey <$> rs).

(** No row of the sheet stores a record with the given identity. *)
Definition noRecord (w : World) (userEmail title' : string) : Prop :=
  forall row, row ∈ rows w -> rowKey row <> (userEmail, title').

(** The records [getAllProjects] maps from the sheet when every step of the
    read succeeds. *)
Definition visible (w : World) : list ProjectEntry :=
  rowToRecord <$> List.filter keepRow (take 26 <$> take 999 (rows w)).

(** A world that differs from [w] only by requests added to the log. *)
Definition logged (w : World) (extra : list Call) : World :=
  {| keyFile := keyFile w; sheets := sheets w; rows := rows w;
     calls := calls w ++ extra |}.

(** None of the requests changes the spreadsheet. *)
Definition readOnly (extra : list Call) : bool :=
  forallb (fun c => negb (isMutation c)) extra.

(** A function's own metadata lookup succeeds: the client is built and the
    next request is answered with at least one worksheet. *)
Definition metadataFound (up : nat -> bool) (w : World) : bool :=
  keyFile w && up (length (calls w)) && bool_decide (sheets w <> []).

(** Every step of the read of [getAllProjects] succeeds: the metadata lookup
    and the values request after it. *)
Definition readSucceeds (up : nat -> bool) (w : World) : bool :=
  metadataFound up w && up (S (length (calls w))).

(** A run threw. *)
Definition threw {A : Type} (r : Result A) : Prop := exists e, r = Thrown e.


(** ** Worlds and records of the examples *)

Definition healthy : nat -> bool := fun _ => true.
Definition outage : nat -> bool := fun _ => false.
Definition anyDate : string -> bool := fun _ => true.

Definition noon : JS.Date := JS.mkDate 2025 3 9 12 0 0 0.

Definition projectsSheet : SheetProperties :=
  {| title := Some "Projects"; sheetId := Some 0 |}.

Definition worldOf (rs : list Row) : World :=
  {| keyFile := true; sheets := [projectsSheet]; rows := rs; calls := [] |}.

Definition blank : PartialEntry :=
  mkPartialEntry None None None None None None None None None None None None.

Definition titled (userEmail : option string) (title' : string)
  : PartialEntry :=
  mkPartialEntry userEmail None (Some title') None None None None None None
    None None None.

Definition alice : SessionUser :=
  {| user_email := Some "alice@corp.example"; user_name := Some "Alice";
     user_role := "employee" |}.

Definition fullRow : Row :=
  ["alice@corp.example"; "Alice"; "Migration"; "Move the archive";
   "Completed"; "2025-01-31"; "2024-12-01"; "High"; "Ops"; "08"; "n/a";
   "first pass"].

(** * The rest of the store, its routes and the sign-in rules *)

(** ** More of JavaScript's strings *)

Module JSString.

(** [String.prototype.toLowerCase] on one code unit below 256: the letters
    A to Z and the capital letters of Latin-1 (U+00C0 to U+00DE, the
    multiplication sign U+00D7 apart) move up by 32. *)
Definition lowerChar (c : ascii) : ascii :=
  let n := nat_of_ascii c in
  if ((65 <=? n) && (n <=? 90)
      || (192 <=? n) && (n <=? 222) && negb (n =? 215))%nat
  then ascii_of_nat (n + 32) else c.

Fixpoint toLowerCase (s : string) : string :=
  match s with
  | String c r => String (lowerChar c) (toLowerCase r)
  | EmptyString => EmptyString
  end.

(** [s.endsWith(suffix)] (ECMA-262, 22.1.3.7): the characters of [s] from
    [length s - length suffix] on are those of [suffix]. *)
Definition endsWith (s suffix : string) : bool :=
  let start := Z.of_nat (String.length s) - Z.of_nat (String.length suffix) in
  if start <? 0 then false
  else String.eqb
         (substring (Z.to_nat start) (String.length suffix) s) suffix.

(** [s.split(sep)] for a separator of one character: the pieces between
    the separators, one more than there are separators. *)
Fixpoint split (sep : ascii) (s : string) : list string :=
  match s with
  | EmptyString => [EmptyString]
  | String c r =>
      if Ascii.eqb c sep then EmptyString :: split sep r
      else match split sep r with
           | piece :: pieces => String c piece :: pieces
           | [] => [String c EmptyString]
           end
  end.

(** [Array.prototype.join]. *)
Fixpoint join (sep : string) (l : list string) : string :=
  match l with
  | [] => EmptyString
  | [x] => x
  | x :: r => x ++ sep ++ join sep r
  end.

(** The double quote and the line feed. *)
Definition dquote : ascii := "034"%char.
Definition lineFeed : ascii := "010"%char.

(** [s.replace] of every double quote (a global regular expression) by two
    double quotes. *)
Fixpoint escapeQuotes (s : string) : string :=
  match s with
  | String c r =>
      if Ascii.eqb c dquote
      then String dquote (String dquote (escapeQuotes r))
      else String c (escapeQuotes r)
  | EmptyString => EmptyString
  end.

End JSString.

(** ** Connection check and CSV export *)

Section StoreExports.

Variable up : nat -> bool.

(** [initializeSheet]: the metadata lookup, with every error swallowed. *)
Definition initializeSheet : M unit :=
  try_catch
    (_ ← getGoogleSheetsClient;
     sheet ← firstSheet up;
     let sheetName := sheetNameOf sheet in
     mret tt)
    (fun _ => mret tt).

Definition csvHeaders : list string :=
  ["Email"; "Name"; "Project Title"; "Project Description"; "Status";
   "Deadline"; "Last Updated"; "Priority"; "Department"; "Estimated Hours";
   "Actual Hours"; "Notes"].

(** A template literal that wraps [s] in double quotes. *)
Definition quoted (s : string) : string :=
  String JSString.dquote (s ++ String JSString.dquote "").

(** [x || ""] inside a template literal, at type [number | undefined]:
    [undefined], [NaN] and [0] are falsy. *)
Definition numberOrEmpty (x : option JS.Num) : string :=
  match x with
  | Some (JS.Int z) => if z =? 0 then "" else JS.Number_toString (JS.Int z)
  | Some JS.NaN => ""
  | None => ""
  end.

(** The twelve quoted fields of one project, in the callback of
    [projects.map] of [exportProjectsAsCSV], before they are joined. *)
Definition csvFields (project : ProjectEntry) : list string :=
  [ quoted (JS.or_else (Some (email project)) "");
    quoted (JS.or_else (Some (name project)) "");
    quoted (JS.or_else (Some (projectTitle project)) "");
    quoted (JSString.escapeQuotes
              (JS.or_else (Some (projectDescription project)) ""));
    quoted (JS.or_else (Some (status project)) "");
    quoted (JS.or_else (Some (deadline project)) "");
    quoted (JS.or_else (Some (lastUpdated project)) "");
    quoted (JS.or_else (Some (priority project)) "");
    quoted (JS.or_else (department project) "");
    quoted (numberOrEmpty (estimatedHours project));
    quoted (numberOrEmpty (actualHours project));
    quoted (JSString.escapeQuotes (JS.or_else (notes project) "")) ].

Definition csvLine (project : ProjectEntry) : string :=
  JSString.join "," (csvFields project).

(** The array [csvRows]: the header line, then one line per project. *)
Definition csvRows (projects : list ProjectEntry) : list string :=
  JSString.join "," csvHeaders :: (csvLine <$> projects).

Definition exportProjectsAsCSV : M string :=
  try_catch
    (projects ← getAllProjects up;
     mret (JSString.join (String JSString.lineFeed "") (csvRows projects)))
    (fun error => throw error).

End StoreExports.

(** ** The read routes *)

(** What a route answers: a JSON error with its HTTP status, its text and,
    for status 500, the error caught; or the payload of the status 200. *)
Inductive Reply (A : Type) : Type :=
| Failure (httpStatus : Z) (error : string) (details : option Error)
| Success (payload : A).
Arguments Failure {A} httpStatus error details.
Arguments Success {A} payload.


(** The file [GET /api/projects/export] returns. *)
Record ExportFile : Type := mkExportFile {
  file_body : string;
  file_name : string;
  file_contentType : string
}.

(** The body of the success of [GET /api/projects/stats]. *)
Record StatsPayload : Type := mkStatsPayload {
  payload_stats : ProjectStats;
  payload_timestamp : string
}.

Section ReadRoutes.

Variable up : nat -> bool.
Variable deadlinePassed : string -> bool.

(** [exportProjectsAsExcel] and [exportProjectsAsPDF] render the projects
    with ExcelJS and PDFKit; the route takes them as they are. *)
Variable exportProjectsAsExcel : M string.
Variable exportProjectsAsPDF : M string.


(** [GET /api/projects/export?format=...]; [format] is
    [searchParams.get('format')]. *)
Definition GET_projects_export (now : JS.Date)
    (session : option SessionUser) (format : option string)
  : M (Reply ExportFile) :=
  match session with
  | None => mret (Failure 401 "Authentication required" None)
  | Some user =>
      if negb (JS.truthy (user_email user))
      then mret (Failure 401 "Authentication required" None)
      else if negb (String.eqb (user_role user) "hr")
      then mret (Failure 403
                   "Access denied. Only HR can export project data." None)
      else
        try_catch
          (let format := JS.or_else format "csv" in
           let currentDate := JS.isoDate now in
           let kind := JSString.toLowerCase format in
           if String.eqb kind "csv" then
             exportData ← exportProjectsAsCSV up;
             mret (Success
                     {| file_body := exportData;
                        file_name :=
                          "employee-projects-" ++ currentDate ++ ".csv";
                        file_contentType := "text/csv" |})
           else if String.eqb kind "excel" then
             exportData ← exportProjectsAsExcel;
             mret (Success
                     {| file_body := exportData;
                        file_name :=
                          "employee-projects-" ++ currentDate ++ ".xlsx";
                        file_contentType :=
                          "application/vnd.openxmlformats-officedocument.spreadsheetml.sheet" |})
           else if String.eqb kind "pdf" then
             exportData ← exportProjectsAsPDF;
             mret (Success
                     {| file_body := exportData;
                        file_name :=
                          "employee-projects-" ++ currentDate ++ ".pdf";
                        file_contentType := "application/pdf" |})
           else
             mret (Failure 400
                     "Invalid format. Supported formats: csv, excel, pdf"
                     None))
          (fun error =>
             mret (Failure 500 "Failed to export projects" (Some error)))
  end.

(** [GET /api/projects/stats]. *)
Definition GET_projects_stats (now : JS.Date) (session : option SessionUser)
  : M (Reply StatsPayload) :=
  match session with
  | None => mret (Failure 401 "Authentication required" None)
  | Some user =>
      if negb (JS.truthy (user_email user))
      then mret (Failure 401 "Authentication required" None)
      else if negb (String.eqb (user_role user) "hr")
      then mret (Failure 403
                   "Access denied. Only HR can view project statistics."
                   None)
      else
        try_catch
          (stats ← getProjectStats up deadlinePassed;
           mret (Success {| payload_stats := stats;
                            payload_timestamp := JS.toISOString now |}))
          (fun error =>
             mret (Failure 500 "Failed to retrieve project statistics"
                     (Some error)))
  end.

End ReadRoutes.

(** ** Sign-in and roles *)

Module Auth.

(** The two variables of the environment the callbacks read. *)
Record Env : Type := mkEnv {
  COMPANY_DOMAIN : option string;
  HR_EMAILS : option string
}.

(** [process.env.COMPANY_DOMAIN?.split(",").map(d => d.trim())
     || ["@hines.com"]]; an array is truthy even when empty. *)
Definition allowedDomains (env : Env) : list string :=
  match COMPANY_DOMAIN env with
  | Some s => JS.trim <$> JSString.split "," s
  | None => ["@hines.com"]
  end.

(** The [signIn] callback: [provider] is [account?.provider] and
    [userEmail] is [user.email]. *)
Definition signIn (env : Env) (provider userEmail : option string) : bool :=
  if bool_decide (provider = Some "google") then
    let email := JS.or_else userEmail "" in
    existsb (fun domain => JSString.endsWith email domain)
      (allowedDomains env)
  else true.

(** [process.env.HR_EMAILS?.split(",") || []]. *)
Definition hrEmails (env : Env) : list string :=
  match HR_EMAILS env with
  | Some s => JSString.split "," s
  | None => []
  end.

(** The role the [jwt] callback stores in the token at sign-in. *)
Definition jwtRole (env : Env) (userEmail : option string) : string :=
  if includes (hrEmails env) (JS.or_else userEmail "") then "hr"
  else "employee".

Definition isHR (env : Env) (userEmail : string) : bool :=
  includes (hrEmails env) userEmail.

Definition isCompanyUser (env : Env) (userEmail : string) : bool :=
  JSString.endsWith userEmail
    (JS.or_else (COMPANY_DOMAIN env) "@yourcompany.com").

End Auth.

(** ** More specification vocabulary *)

(** The service answers every request. *)
Definition answers (up : nat -> bool) : Prop := forall n, up n = true.

(** No row of the sheet is dropped by the filter of [getAllProjects] and
    all of them fit the range it reads. *)
Definition noBlankRows (rs : list Row) : Prop :=
  Forall (fun row => keepRow row = true) rs /\ (length rs <= 999)%nat.

(** An hours value that [toString] writes in plain decimal digits: absent,
    [NaN], or an integer below 10^21 in magnitude. *)
Definition plainHours (x : option JS.Num) : Prop :=
  match x with
  | Some (JS.Int z) => Z.abs z < 10 ^ 21
  | _ => True
  end.

(** How a reader of CSV reads the inside of a quoted field: two double
    quotes in a row stand for one. *)
Fixpoint unescapeQuotes (s : string) : string :=
  match s with
  | String c r =>
      if Ascii.eqb c JSString.dquote then
        match r with
        | String c' r' =>
            if Ascii.eqb c' JSString.dquote
            then String JSString.dquote (unescapeQuotes r')
            else String c (String c' (unescapeQuotes r'))
        | EmptyString => String c EmptyString
        end
      else String c (unescapeQuotes r)
  | EmptyString => EmptyString
  end.

(** The number of projects that [p] holds of. *)
Definition countIf (p : ProjectEntry -> bool) (projects : list ProjectEntry)
  : nat :=
  length (List.filter p projects).

(** [project.department || "Unassigned"], the key under which a project is
    counted in [departmentStats]. *)
Definition departmentKey (project : ProjectEntry) : string :=
  JS.or_else (department project) "Unassigned".

(** The property names an object literal inherits from [Object.prototype]:
    under these [acc[k]] of an empty object is not [undefined], and the
    counting of [reduce] is not that of a map. *)
Definition inheritedKeys : list string :=
  ["constructor"; "__proto__"; "hasOwnProperty"; "isPrototypeOf";
   "propertyIsEnumerable"; "toLocaleString"; "toString"; "valueOf";
   "__defineGetter__"; "__defineSetter__"; "__lookupGetter__";
   "__lookupSetter__"].

(** No project is counted under an inherited property name. *)
Definition plainKeys (projects : list ProjectEntry) : Prop :=
  Forall (fun p => (departmentKey p ∉ inheritedKeys)
                   /\ (priority p ∉ inheritedKeys)) projects.

(** The record a sheet row holds after an upsert of [projectData] with
    email [e] and title [t] at clock reading [now]. *)
Definition recordWritten (now : JS.Date) (e t : string)
    (projectData : PartialEntry) : ProjectEntry :=
  {| email := e;
     name := JS.or_else (p_name projectData) "";
     projectTitle := t;
     projectDescription := JS.or_else (p_projectDescription projectData) "";
     status := JS.or_else (p_status projectData) "Not Started";
     deadline := JS.or_else (p_deadline projectData) "";
     lastUpdated := JS.isoDate now;
     priority := JS.or_else (p_priority projectData) "Medium";
     department := Some (JS.or_else (p_department projectData) "");
     estimatedHours := p_estimatedHours projectData;
     actualHours := p_actualHours projectData;
     notes := Some (JS.or_else (p_notes projectData) "") |}.

(** A world with the rows replaced and requests added to the log. *)
Definition rewritten (w : World) (rs : list Row) (extra : list Call)
  : World :=
  {| keyFile := keyFile w; sheets := sheets w; rows := rs;
     calls := calls w ++ extra |}.
Example parseInt_12 : JS.parseInt " 12abc" = JS.Int 12.
Proof. reflexivity. Qed.
Example parseInt_hex : JS.parseInt "0x1F" = JS.Int 31.
Proof. reflexivity. Qed.
Example parseInt_neg : JS.parseInt "-7.5" = JS.Int (-7).
Proof. reflexivity. Qed.
Example parseInt_abc : JS.parseInt "abc" = JS.NaN.
Proof. reflexivity. Qed.
Example toString_0 : JS.Number_toString (JS.Int 0) = "0".
Proof. reflexivity. Qed.
Example toString_m12 : JS.Number_toString (JS.Int (-120)) = "-120".
Proof. reflexivity. Qed.
Example trim_ex : JS.trim "  a b  " = "a b".
Proof. reflexivity. Qed.
Example isoDate_ex :
  JS.isoDate (JS.mkDate 2025 3 9 23 59 1 7) = "2025-03-09".
Proof. reflexivity. Qed.
Example findIndex_ex : JS.findIndex (Z.eqb 3) [1; 2; 3; 3] = 2.
Proof. reflexivity. Qed.

(** ** Decimal strings *)

(** Reading the decimal digits of [d] on top of [a]. *)
Lemma readDigits_uint (d : Decimal.uint) (a : Z) :
  JS.readDigits 10 (NilEmpty.string_of_uint d) (Some a)
  = Some (Z.of_N (DecimalPos.Unsigned.of_lu (Decimal.rev d))
          + a * 10 ^ Z.of_N (DecimalPos.Unsigned.usize d)).
Proof.
  revert a.
  induction d; intros a; cbn [NilEmpty.string_of_uint JS.readDigits];
    [simpl; f_equal; lia | ..];
    (change (JS.radixDigit 10 _) with (Some 0)
     || change (JS.radixDigit 10 _) with (Some 1)
     || change (JS.radixDigit 10 _) with (Some 2)
     || change (JS.radixDigit 10 _) with (Some 3)
     || change (JS.radixDigit 10 _) with (Some 4)
     || change (JS.radixDigit 10 _) with (Some 5)
     || change (JS.radixDigit 10 _) with (Some 6)
     || change (JS.radixDigit 10 _) with (Some 7)
     || change (JS.radixDigit 10 _) with (Some 8)
     || change (JS.radixDigit 10 _) with (Some 9));
    cbn [default from_option id]; rewrite IHd; f_equal;
    match goal with
    | |- context [Decimal.rev (?D d)] =>
        change (Decimal.rev (D d)) with (Decimal.revapp d (D Nil));
        rewrite (DecimalPos.Unsigned.of_lu_revapp d (D Nil))
    end;
    cbn [DecimalPos.Unsigned.usize DecimalPos.Unsigned.of_lu];
    rewrite N2Z.inj_add, N2Z.inj_mul, N2Z.inj_pow, N2Z.inj_succ,
      Z.pow_succ_r by lia;
    simpl Z.of_N; ring.
Qed.

Lemma string_of_uint_plain (d : Decimal.uint) :
  d <> Nil ->
  JS.trimStart (NilEmpty.string_of_uint d) = NilEmpty.string_of_uint d
  /\ JS.signOf (NilEmpty.string_of_uint d) = (1, NilEmpty.string_of_uint d)
  /\ JS.radixOf (NilEmpty.string_of_uint d) = (10, NilEmpty.string_of_uint d)
  /\ JS.readDigits 10 (NilEmpty.string_of_uint d) None
     = JS.readDigits 10 (NilEmpty.string_of_uint d) (Some 0).
Proof.
  intros Hd. destruct d as [|d|d|d|d|d|d|d|d|d|d]; [done|..];
    (repeat split; try done); by destruct d.
Qed.

(** The decimal string of a positive number reads back as the number. *)
Lemma readDigits_positive (p : positive) :
  JS.readDigits 10 (NilEmpty.string_of_uint (Pos.to_uint p)) None
  = Some (Z.pos p).
Proof.
  destruct (string_of_uint_plain (Pos.to_uint p)) as (_ & _ & _ & ->);
    [apply DecimalPos.Unsigned.to_uint_nonnil|].
  rewrite readDigits_uint, <- DecimalPos.Unsigned.of_uint_alt,
    DecimalPos.Unsigned.of_to.
  simpl. f_equal.
Qed.

(** [parseInt] reads back what [toString] writes. *)
Lemma parseInt_toString (z : Z) :
  JS.parseInt (JS.Number_toString (JS.Int z)) = JS.Int z.
Proof.
  destruct z as [|p|p]; [done|..]; unfold JS.Number_toString, JS.parseInt;
    cbn [Z.to_int NilZero.string_of_int].
  - assert (NilZero.string_of_uint (Pos.to_uint p)
            = NilEmpty.string_of_uint (Pos.to_uint p)) as ->.
    { pose proof (DecimalPos.Unsigned.to_uint_nonnil p).
      by destruct (Pos.to_uint p). }
    destruct (string_of_uint_plain (Pos.to_uint p)) as (-> & -> & -> & _);
      [apply DecimalPos.Unsigned.to_uint_nonnil|].
    by rewrite readDigits_positive.
  - assert (NilZero.string_of_uint (Pos.to_uint p)
            = NilEmpty.string_of_uint (Pos.to_uint p)) as ->.
    { pose proof (DecimalPos.Unsigned.to_uint_nonnil p).
      by destruct (Pos.to_uint p). }
    cbn [JS.trimStart]. change (JS.isWhiteSpace "-") with false.
    cbn [JS.signOf]. change (Ascii.eqb "-" "-") with true. cbn iota.
    destruct (string_of_uint_plain (Pos.to_uint p)) as (_ & _ & -> & _);
      [apply DecimalPos.Unsigned.to_uint_nonnil|].
    by rewrite readDigits_positive.
Qed.

(** ** The record mapper: numeric cells *)

Lemma radixDigit_10_not_digit c :
  isDecimalDigit c = false -> JS.radixDigit 10 c = None.
Proof.
  unfold isDecimalDigit, JS.radixDigit, JS.digitValue.
  set (n := nat_of_ascii c). intros H.
  destruct (48 <=? Z.of_nat n) eqn:E1, (Z.of_nat n <=? 57) eqn:E2; simpl.
  - exfalso. apply andb_false_iff in H.
    destruct H as [H1|H1]; apply Nat.leb_gt in H1; lia.
  - destruct ((97 <=? Z.of_nat n) && (Z.of_nat n <=? 122)) eqn:E3.
    + destruct (Z.of_nat n - 87 <? 10) eqn:E4; [lia | done].
    + destruct ((65 <=? Z.of_nat n) && (Z.of_nat n <=? 90)) eqn:E5; [|done].
      destruct (Z.of_nat n - 55 <? 10) eqn:E4; [lia | done].
  - destruct ((97 <=? Z.of_nat n) && (Z.of_nat n <=? 122)) eqn:E3; [lia|].
    destruct ((65 <=? Z.of_nat n) && (Z.of_nat n <=? 90)) eqn:E5; [lia|done].
  - destruct ((97 <=? Z.of_nat n) && (Z.of_nat n <=? 122)) eqn:E3; [lia|].
    destruct ((65 <=? Z.of_nat n) && (Z.of_nat n <=? 90)) eqn:E5; [lia|done].
Qed.

Lemma zero_is_digit c : Ascii.eqb c "0" = true -> isDecimalDigit c = true.
Proof. intros H. apply Ascii.eqb_eq in H. by subst. Qed.

(** A cell that does not start with a number parses to [NaN]. *)
Lemma parseInt_not_numeric s :
  startsWithNumber s = false -> JS.parseInt s = JS.NaN.
Proof.
  unfold startsWithNumber, JS.parseInt.
  destruct (JS.signOf (JS.trimStart s)) as [sign S1]; simpl.
  destruct S1 as [|c r]; [done|]. intros H.
  assert (JS.radixOf (String c r) = (10, String c r)) as ->.
  { simpl. destruct r; [done|].
    destruct (Ascii.eqb c "0") eqn:E; [|done].
    apply zero_is_digit in E. congruence. }
  simpl. by rewrite radixDigit_10_not_digit.
Qed.

Lemma numericCell_cases (c : option string) :
  numericCell c =
    match c with
    | None => None
    | Some s => if String.eqb s "" then None else Some (JS.parseInt s)
    end.
Proof.
  unfold numericCell, JS.truthy. destruct c as [s|]; [|done]. simpl.
  by destruct (String.eqb s "").
Qed.

(** C2, the claim as stated fails: the eleven-cell row below has the
    non-numeric cells [abc] and [n/a] in the two numeric columns, and the
    mapper yields [NaN] for both, not [undefined]. *)
Lemma rowToRecord_non_numeric_is_NaN :
  let row := ["alice@corp.example"; "Alice"; "Migration"; ""; ""; "";
              ""; ""; ""; "abc"; "n/a"] in
  (length row <= 12)%nat
  /\ startsWithNumber "abc" = false /\ startsWithNumber "n/a" = false
  /\ estimatedHours (rowToRecord row) = Some JS.NaN
  /\ actualHours (rowToRecord row) = Some JS.NaN
  /\ estimatedHours (rowToRecord row) <> None
  /\ actualHours (rowToRecord row) <> None.
Proof. vm_compute. repeat split; (lia || done). Qed.

(** C2, amended: for every row, [rowToRecord] sets a numeric field to
    [undefined] exactly when its cell is absent or empty; for any other cell
    it sets the field to [parseInt] of the cell, which is [NaN] whenever the
    cell does not start with a number.  The row never fails: the mapper is a
    total function. *)
Theorem rowToRecord_numeric_fields (row : Row) :
  (estimatedHours (rowToRecord row) = None
   <-> row !! 9%nat = None \/ row !! 9%nat = Some "")
  /\ (actualHours (rowToRecord row) = None
      <-> row !! 10%nat = None \/ row !! 10%nat = Some "")
  /\ (forall c, row !! 9%nat = Some c -> c <> "" ->
        estimatedHours (rowToRecord row) = Some (JS.parseInt c)
        /\ (startsWithNumber c = false ->
            estimatedHours (rowToRecord row) = Some JS.NaN))
  /\ (forall c, row !! 10%nat = Some c -> c <> "" ->
        actualHours (rowToRecord row) = Some (JS.parseInt c)
        /\ (startsWithNumber c = false ->
            actualHours (rowToRecord row) = Some JS.NaN)).
Proof.
  assert (forall o : option string,
            (numericCell o = None <-> o = None \/ o = Some "")
            /\ (forall c, o = Some c -> c <> "" ->
                  numericCell o = Some (JS.parseInt c)
                  /\ (startsWithNumber c = false ->
                      numericCell o = Some JS.NaN))) as Hcell.
  { intros o. rewrite numericCell_cases. destruct o as [s|].
    - destruct (String.eqb_spec s "") as [->|Hne].
      + split; [split; [by right | done]|].
        intros c Hc Hne. by injection Hc as <-.
      + split; [split; [done | intros [H|H]; congruence]|].
        intros c Hc _. injection Hc as ->.
        split; [done|]. intros Hn. by rewrite parseInt_not_numeric.
    - split; [split; [by left | done]|]. intros c Hc. discriminate Hc. }
  simpl.
  destruct (Hcell (row !! 9%nat)) as [H9 H9'].
  destruct (Hcell (row !! 10%nat)) as [H10 H10'].
  repeat split; try (apply H9 || apply H10); intros.
  all: try (by apply H9); try (by apply H10).
  all: try (by eapply H9'); try (by eapply H10').
Qed.

(** ** The record mapper: the round trip *)

Lemma digitChar_cases n :
  JS.digitChar n ∈ ["0"; "1"; "2"; "3"; "4"; "5"; "6"; "7"; "8"; "9"]%char.
Proof.
  unfold JS.digitChar.
  assert (n mod 10 = 0 \/ n mod 10 = 1 \/ n mod 10 = 2 \/ n mod 10 = 3
          \/ n mod 10 = 4 \/ n mod 10 = 5 \/ n mod 10 = 6 \/ n mod 10 = 7
          \/ n mod 10 = 8 \/ n mod 10 = 9) as Hc
    by (pose proof (Z.mod_pos_bound n 10); lia).
  repeat (destruct Hc as [Hc|Hc]; [rewrite Hc; vm_compute; set_solver|]).
  rewrite Hc; vm_compute; set_solver.
Qed.

Lemma digitChar_is_digit n : isDecimalDigit (JS.digitChar n) = true.
Proof.
  pose proof (digitChar_cases n) as H.
  repeat (apply elem_of_cons in H as [H|H]; [by rewrite H|]).
  by apply elem_of_nil in H.
Qed.

Lemma digitChar_not_T n : Ascii.eqb (JS.digitChar n) "T" = false.
Proof.
  pose proof (digitChar_cases n) as H.
  repeat (apply elem_of_cons in H as [H|H]; [by rewrite H|]).
  by apply elem_of_nil in H.
Qed.

(** Up to year 9999 the date of the clock is the ten characters
    [YYYY-MM-DD]. *)
Lemma isoDate_four_digit_year now :
  JS.year now <= 9999 ->
  JS.isoDate now
  = JS.pad4 (JS.year now) ++ "-" ++ JS.pad2 (JS.month now) ++ "-"
    ++ JS.pad2 (JS.day now).
Proof.
  intros Hy. unfold JS.isoDate, JS.toISOString.
  destruct (Z.leb_spec (JS.year now) 9999); [|lia].
  unfold JS.pad4, JS.pad3, JS.pad2. simpl.
  by rewrite !digitChar_not_T.
Qed.

Lemma isoDate_shape now : JS.year now <= 9999 -> isYMD (JS.isoDate now) = true.
Proof.
  intros Hy. rewrite isoDate_four_digit_year by done.
  unfold isYMD, JS.pad4, JS.pad3, JS.pad2. simpl.
  by rewrite !digitChar_is_digit.
Qed.

Lemma hoursCell_numericCell (o : option string) :
  hoursCell (numericCell o) =
    match o with
    | None => ""
    | Some c =>
        if String.eqb c "" then "" else JS.Number_toString (JS.parseInt c)
    end.
Proof.
  rewrite numericCell_cases. destruct o as [c|]; [|done].
  destruct (String.eqb c ""); [done|].
  unfold hoursCell, JS.or_else. simpl.
  destruct (JS.parseInt c) as [|z]; [done|]. simpl.
  destruct (String.eqb_spec (NilZero.string_of_int (Z.to_int z)) "") as [E|]; [|done].
  destruct z; simpl in E; try done.
Qed.

Lemma or_else_some_ne (c d : string) : c <> "" -> JS.or_else (Some c) d = c.
Proof. intros H. simpl. by destruct (String.eqb_spec c ""). Qed.

Lemma or_else_empty (o : option string) : JS.or_else o "" = default "" o.
Proof.
  destruct o as [c|]; [|done]. simpl.
  by destruct (String.eqb_spec c "") as [->|].
Qed.

Lemma or_else_idem (o : option string) (d : string) :
  d <> "" -> JS.or_else (Some (JS.or_else o d)) d = JS.or_else o d.
Proof.
  intros Hd. destruct o as [c|]; simpl.
  - destruct (String.eqb_spec c "") as [->|].
    + by destruct (String.eqb_spec d "").
    + by destruct (String.eqb_spec c "").
  - by destruct (String.eqb_spec d "").
Qed.

(** C4, the claim as stated fails: every cell of [fullRow] is present and
    non-empty, yet the round trip rewrites the two numeric cells, [08] to
    [8] and [n/a] to [NaN]; and a row whose status and priority cells are
    empty comes back with the defaults in them. *)
Lemma roundTrip_changes_cells :
  (length fullRow <= 12)%nat
  /\ fullRow !! 9%nat = Some "08"
  /\ roundTrip noon fullRow !! 9%nat = Some (Some "8")
  /\ fullRow !! 10%nat = Some "n/a"
  /\ roundTrip noon fullRow !! 10%nat = Some (Some "NaN")
  /\ roundTrip noon ["alice@corp.example"; "Alice"; "Migration"; ""; "";
                     ""; ""; ""]
     = [Some "alice@corp.example"; Some "Alice"; Some "Migration"; Some "";
        Some "Not Started"; Some ""; Some "2025-03-09"; Some "Medium";
        Some ""; Some ""; Some ""; Some ""].
Proof. vm_compute. repeat split; lia. Qed.

(** C4, amended: for every row, [recordToRow] after [rowToRecord] yields
    twelve cells.  The cells of email, name, projectTitle,
    projectDescription, deadline, department and notes are reproduced, an
    absent cell as the empty string.  The cells of status and priority are
    reproduced when they are not empty and become [Not Started] and [Medium]
    when they are empty or absent.  The cells of estimatedHours and
    actualHours stay empty when empty or absent and otherwise become the
    string form of [parseInt] of the cell, which reproduces a cell that is
    the decimal form of an integer of magnitude at most 2^53.  The cell of
    lastUpdated is the date of the clock whatever the input holds, in the
    shape [YYYY-MM-DD] while the year has four digits. *)
Theorem roundTrip_cells (now : JS.Date) (row : Row) :
  let out := roundTrip now row in
  length out = 12%nat
  /\ (forall i, i ∈ [0; 1; 2; 3; 5; 8; 11]%nat ->
        out !! i = Some (Some (default "" (row !! i))))
  /\ (forall c, row !! 4%nat = Some c -> c <> "" ->
        out !! 4%nat = Some (Some c))
  /\ (row !! 4%nat = None \/ row !! 4%nat = Some "" ->
        out !! 4%nat = Some (Some "Not Started"))
  /\ (forall c, row !! 7%nat = Some c -> c <> "" ->
        out !! 7%nat = Some (Some c))
  /\ (row !! 7%nat = None \/ row !! 7%nat = Some "" ->
        out !! 7%nat = Some (Some "Medium"))
  /\ (forall i, i ∈ [9; 10]%nat ->
        (row !! i = None \/ row !! i = Some "" -> out !! i = Some (Some ""))
        /\ (forall c, row !! i = Some c -> c <> "" ->
              out !! i = Some (Some (JS.Number_toString (JS.parseInt c))))
        /\ (forall z, Z.abs z <= 2 ^ 53 ->
              row !! i = Some (JS.Number_toString (JS.Int z)) ->
              out !! i = Some (Some (JS.Number_toString (JS.Int z)))))
  /\ out !! 6%nat = Some (Some (JS.isoDate now))
  /\ (JS.year now <= 9999 -> isYMD (JS.isoDate now) = true).
Proof.
  unfold roundTrip, recordToRow, asPartial, rowToRecord.
  cbn -[JS.or_else hoursCell numericCell JS.isoDate isYMD].
  rewrite (or_else_idem _ "Not Started"), (or_else_idem _ "Medium") by done.
  rewrite !or_else_empty. simpl default.
  rewrite !hoursCell_numericCell.
  split; [done|]. split.
  { intros i Hi.
    repeat (apply elem_of_cons in Hi as [->|Hi]; [done|]).
    by apply elem_of_nil in Hi. }
  split. { intros c -> Hc. simpl. by destruct (String.eqb_spec c ""). }
  split. { by intros [-> | ->]. }
  split. { intros c -> Hc. simpl. by destruct (String.eqb_spec c ""). }
  split. { by intros [-> | ->]. }
  split.
  { assert (forall o : option string,
              let out :=
                match o with
                | Some c =>
                    if String.eqb c "" then ""
                    else JS.Number_toString (JS.parseInt c)
                | None => ""
                end in
              (o = None \/ o = Some "" -> out = "")
              /\ (forall c, o = Some c -> c <> "" ->
                    out = JS.Number_toString (JS.parseInt c))
              /\ (forall z, Z.abs z <= 2 ^ 53 ->
                    o = Some (JS.Number_toString (JS.Int z)) ->
                    out = JS.Number_toString (JS.Int z))) as Hcell.
    { intros o. cbn zeta. split; [by intros [-> | ->]|]. split.
      - intros c -> Hc. by destruct (String.eqb_spec c "").
      - intros z _ ->.
        destruct (String.eqb_spec (JS.Number_toString (JS.Int z)) "")
          as [E|_]; [by rewrite E | by rewrite parseInt_toString]. }
    intros i Hi.
    apply elem_of_cons in Hi as [->|Hi];
      [|apply elem_of_cons in Hi as [->|Hi]; [|by apply elem_of_nil in Hi]].
    - destruct (Hcell (row !! 9%nat)) as (H1 & H2 & H3).
      cbn [lookup list_lookup].
      repeat split; intros; do 2 f_equal; eauto.
    - destruct (Hcell (row !! 10%nat)) as (H1 & H2 & H3).
      cbn [lookup list_lookup].
      repeat split; intros; do 2 f_equal; eauto. }
  split; [done|]. apply isoDate_shape.
Qed.

(** ** The read path of the store *)

Ltac run_store :=
  unfold getAllProjects, getUserProjects, addOrUpdateProject, deleteProject,
    getProjectStats, try_catch, getGoogleSheetsClient, firstSheet,
    readValues, request, gets, throw, mbind, M_bind, mret, M_ret.

Lemma logged_nil w : logged w [] = w.
Proof. destruct w; unfold logged; simpl. by rewrite app_nil_r. Qed.

Lemma logged_logged w extra extra' :
  logged (logged w extra) extra' = logged w (extra ++ extra').
Proof. unfold logged; simpl. by rewrite app_assoc. Qed.

(** [getAllProjects] always returns, never throws: the mapped rows when the
    read succeeds and the empty array otherwise; it only adds read requests
    to the log. *)
Lemma getAllProjects_run up w :
  exists extra,
    getAllProjects up w
    = (Returned (if readSucceeds up w then visible w else []), logged w extra)
    /\ readOnly extra = true.
Proof.
  run_store. unfold readSucceeds, metadataFound.
  destruct w as [kf ss rs cs]; simpl.
  destruct kf; simpl.
  2: { exists []. by rewrite logged_nil. }
  destruct (up (length cs)) eqn:E1; simpl.
  2: { by exists [spreadsheets_get]. }
  destruct ss as [|sheet ss]; simpl.
  { by exists [spreadsheets_get]. }
  rewrite length_app; simpl. rewrite Nat.add_1_r.
  exists [spreadsheets_get; values_get (sheetNameOf sheet ++ "!A2:Z1000")].
  unfold logged, visible; simpl. rewrite <- app_assoc.
  by destruct (up (S (length cs))).
Qed.

(** C8: whichever step of the read fails (building the client, the metadata
    request, a spreadsheet without worksheet, the values request),
    [getAllProjects] returns the empty array and does not throw. *)
Theorem getAllProjects_soft_fail (up : nat -> bool) (w : World) :
  keyFile w = false
  \/ up (length (calls w)) = false
  \/ sheets w = []
  \/ up (S (length (calls w))) = false ->
  exists extra,
    getAllProjects up w = (Returned [], logged w extra)
    /\ readOnly extra = true.
Proof.
  intros Hfail. destruct (getAllProjects_run up w) as (extra & Hrun & Hro).
  exists extra. split; [|done]. rewrite Hrun.
  assert (readSucceeds up w = false) as ->; [|done].
  unfold readSucceeds, metadataFound.
  destruct Hfail as [-> | [-> | [-> | ->]]]; simpl.
  - done.
  - by rewrite andb_false_r.
  - by rewrite andb_false_r.
  - by rewrite andb_false_r.
Qed.

Lemma getAllProjects_soft_fail_witness :
  exists extra,
    getAllProjects outage (worldOf [fullRow])
    = (Returned [], logged (worldOf [fullRow]) extra)
    /\ readOnly extra = true.
Proof.
  apply (getAllProjects_soft_fail outage (worldOf [fullRow])).
  right; left. reflexivity.
Defined.

Lemma filter_eqb_decide (e : string) (l : list ProjectEntry) :
  List.filter (fun project => String.eqb (email project) e) l
  = filter (fun project => email project = e) l.
Proof.
  induction l as [|p l IH]; [done|]. simpl. rewrite filter_cons.
  destruct (String.eqb_spec (email p) e); case_decide; try done.
  by rewrite IH.
Qed.

(** C9: [getUserProjects e] returns what [getAllProjects] returns, filtered
    by equality of the email field with [e]: a subsequence of it, every
    element of which has email [e]. *)
Theorem getUserProjects_filters (up : nat -> bool) (w : World) (e : string) :
  exists (all : list ProjectEntry) (w' : World),
    getAllProjects up w = (Returned all, w')
    /\ getUserProjects up e w
       = (Returned (filter (fun project => email project = e) all), w')
    /\ filter (fun project => email project = e) all `sublist_of` all
    /\ Forall (fun project => email project = e)
         (filter (fun project => email project = e) all).
Proof.
  destruct (getAllProjects_run up w) as (extra & Hrun & _).
  eexists _, _. split; [exact Hrun|].
  split.
  { unfold getUserProjects, try_catch, mbind, M_bind, mret, M_ret.
    rewrite Hrun. by rewrite filter_eqb_decide. }
  split; [apply sublist_filter|].
  apply Forall_forall. intros p Hp. by apply list_elem_of_filter in Hp as [? _].
Qed.

(** ** Statistics *)




Example stats_of_four :
  let p s := rowToRecord ["a@corp.example"; "A"; "T"; ""; s] in
  let stats :=
    statsOf anyDate
      [p "Completed"; p "Completed"; p "In Progress"; p "Not Started"] in
  totalProjects stats = 4%nat /\ completedProjects stats = 2%nat
  /\ (completionRate stats == 50)%Q.
Proof. by vm_compute. Qed.

(** ** The write path of the store *)

Lemma rowToRecord_take n (row : Row) :
  (12 <= n)%nat -> rowToRecord (take n row) = rowToRecord row.
Proof.
  intros Hn. unfold rowToRecord. by rewrite !lookup_take_lt by lia.
Qed.

Lemma findIndex_none {A : Type} (p : A -> bool) (l : list A) :
  (forall x, x ∈ l -> p x = false) -> JS.findIndex p l = -1.
Proof.
  induction l as [|x l IH]; intros H; [done|]. simpl.
  rewrite (H x) by set_solver. rewrite IH; [done|].
  intros y Hy. apply H. set_solver.
Qed.

(** What [findIndex] returns: [-1], or the index of the first element that
    satisfies the predicate. *)
Lemma findIndex_spec {A : Type} (p : A -> bool) (l : list A) :
  (JS.findIndex p l = -1 /\ forall x, x ∈ l -> p x = false)
  \/ (exists (i : nat) (x : A),
        JS.findIndex p l = Z.of_nat i /\ l !! i = Some x /\ p x = true
        /\ forall j y, (j < i)%nat -> l !! j = Some y -> p y = false).
Proof.
  induction l as [|x l IH]; simpl.
  { left. split; [done|]. intros x Hx. by apply elem_of_nil in Hx. }
  destruct (p x) eqn:Hpx.
  { right. exists 0%nat, x. repeat split; try done. intros; lia. }
  destruct IH as [[-> Hall] | (i & y & -> & Hi & Hy & Hmin)].
  - left. split; [done|]. intros z Hz.
    apply elem_of_cons in Hz as [->|Hz]; [done | by apply Hall].
  - right. exists (S i), y.
    destruct (Z.ltb_spec (Z.of_nat i) 0); [lia|].
    repeat split; try done; try lia.
    intros [|j] z Hj Hz; simpl in Hz; [by injection Hz as <-|].
    apply (Hmin j); [lia | done].
Qed.

(** The records the store can see are records of rows of the sheet. *)
Lemma visible_from_rows w project :
  project ∈ visible w -> exists row, row ∈ rows w /\ project = rowToRecord row.
Proof.
  unfold visible. intros H.
  apply list_elem_of_fmap in H as (row26 & -> & H).
  apply list_elem_of_In, List.filter_In in H as [H _].
  apply list_elem_of_In, list_elem_of_fmap in H as (row & -> & H).
  exists row. split; [by eapply subseteq_take|].
  apply rowToRecord_take; lia.
Qed.

(** The metadata lookup: one request, then the first worksheet. *)
Lemma firstSheet_run up w :
  firstSheet up w
  = (if up (length (calls w))
     then match sheets w with
          | sheet :: _ => Returned sheet
          | [] => Thrown NoSheetsFound
          end
     else Thrown (RequestFailed spreadsheets_get),
     logged w [spreadsheets_get]).
Proof.
  run_store. unfold logged.
  destruct (up (length (calls w))); [|done]. simpl. by destruct (sheets w).
Qed.

(** The run of [addOrUpdateProject] up to its validation: nothing but the
    metadata request is issued before the check. *)
Lemma addOrUpdateProject_invalid up now projectData w :
  JS.truthy (p_email projectData) = false
  \/ JS.truthy (p_projectTitle projectData) = false ->
  addOrUpdateProject up now projectData w
  = if keyFile w
    then (if metadataFound up w then Thrown EmailAndTitleRequired
          else if up (length (calls w)) then Thrown NoSheetsFound
          else Thrown (RequestFailed spreadsheets_get),
          logged w [spreadsheets_get])
    else (Thrown ClientInitFailed, w).
Proof.
  intros Hbad.
  unfold addOrUpdateProject, try_catch, mbind, M_bind at 1 2,
    getGoogleSheetsClient, metadataFound.
  destruct (keyFile w) eqn:Hk; [|done]. rewrite firstSheet_run.
  destruct (up (length (calls w))); simpl; [|done].
  destruct (sheets w) as [|sheet ss]; simpl; [done|].
  assert (negb (JS.truthy (p_email projectData))
          || negb (JS.truthy (p_projectTitle projectData)) = true) as ->.
  { destruct Hbad as [-> | ->]; [done | by rewrite orb_true_r]. }
  done.
Qed.



(** C3, the claim as stated fails: with the service answering every request,
    an upsert without email fails with the validation error after it has
    sent the metadata request. *)
Lemma validation_follows_metadata_request :
  let run :=
    addOrUpdateProject healthy noon (titled None "Migration") (worldOf []) in
  fst run = Thrown EmailAndTitleRequired
  /\ calls (worldOf []) = []
  /\ calls (snd run) = [spreadsheets_get]
  /\ calls (snd run) <> calls (worldOf []).
Proof. by vm_compute. Qed.

(** C3, amended: every [addOrUpdateProject] invocation that fails with the
    validation error has issued exactly one remote request before failing,
    the metadata read [spreadsheets.get]; no values were read and nothing
    was written, so the sheet is as it was. *)
Theorem validation_error_after_one_read
    (up : nat -> bool) (now : JS.Date) (projectData : PartialEntry)
    (w w' : World) :
  addOrUpdateProject up now projectData w
  = (Thrown EmailAndTitleRequired, w') ->
  calls w' = (calls w ++ [spreadsheets_get])%list
  /\ rows w' = rows w /\ sheets w' = sheets w /\ keyFile w' = keyFile w.
Proof.
  intros Hrun.
  enough (w' = logged w [spreadsheets_get]) as -> by done.
  destruct (negb (JS.truthy (p_email projectData))
            || negb (JS.truthy (p_projectTitle projectData))) eqn:Hv.
  { rewrite addOrUpdateProject_invalid in Hrun.
    - destruct (keyFile w); by inversion Hrun.
    - apply orb_true_iff in Hv as [Hv|Hv]; apply negb_true_iff in Hv; auto. }
  exfalso. revert Hrun.
  unfold addOrUpdateProject, try_catch, mbind, M_bind at 1 2,
    getGoogleSheetsClient.
  destruct (keyFile w); [|done]. rewrite firstSheet_run.
  destruct (up (length (calls w))); [|done].
  destruct (sheets w) as [|sheet ss]; [done|]. rewrite Hv.
  unfold mbind, M_bind at 1.
  destruct (getAllProjects_run up (logged w [spreadsheets_get]))
    as (extra & -> & _).
  unfold throw, request. repeat case_match; simplify_eq; done.
Qed.

Lemma validation_error_after_one_read_witness :
  let w := worldOf [fullRow] in
  let w' := logged w [spreadsheets_get] in
  addOrUpdateProject healthy noon (titled None "Migration") w
  = (Thrown EmailAndTitleRequired, w')
  /\ calls w' = (calls w ++ [spreadsheets_get])%list
  /\ rows w' = rows w /\ sheets w' = sheets w /\ keyFile w' = keyFile w.
Proof.
  split; [reflexivity|].
  apply (validation_error_after_one_read healthy noon
           (titled None "Migration")).
  reflexivity.
Defined.

(** ** Deleting *)





(** ** The identity invariant under upsert *)

(** C5, a defect of the code: the index found in the filtered list of
    records is used as a row offset in the sheet.  Below, sheet row 2 is
    blank and row 3 stores Alice's project; the keys of the rows are
    distinct.  The upsert of Alice's project finds the record at index 0 and
    updates row 0 + 2 = 2, the blank row, instead of row 3: the stored row
    is not overwritten, and the sheet now has two rows, and [getAllProjects]
    two records, with the same (email, projectTitle). *)
Theorem upsert_duplicates_after_blank_row :
  let before := [[]; fullRow] in
  let projectData :=
    mkPartialEntry (Some "alice@corp.example") (Some "Alice")
      (Some "Migration") None (Some "In Progress") None None None None None
      None None in
  let run := addOrUpdateProject healthy noon projectData (worldOf before) in
  let written :=
    ["alice@corp.example"; "Alice"; "Migration"; ""; "In Progress"; "";
     "2025-03-09"; "Medium"; ""; ""; ""; ""] in
  uniqueKeys before
  /\ fst run = Returned tt
  /\ last (calls (snd run))
     = Some (values_update "Projects!A2:Z2" (Some <$> written))
  /\ rows (snd run) = [written; fullRow]
  /\ rowKey written = rowKey fullRow
  /\ ~ uniqueKeys (rows (snd run))
  /\ keyOf <$> (if fst (getAllProjects healthy (snd run)) is Returned all
                then all else [])
     = [("alice@corp.example", "Migration");
        ("alice@corp.example", "Migration")].
Proof.
  cbn zeta. split.
  { unfold uniqueKeys.
    change (rowKey <$> [[]; fullRow])
      with [("", ""); ("alice@corp.example", "Migration")].
    apply NoDup_cons. split; [|apply NoDup_singleton].
    intros H. apply list_elem_of_singleton in H. discriminate H. }
  split; [by vm_compute|]. split; [by vm_compute|].
  split; [by vm_compute|]. split; [by vm_compute|].
  split; [|by vm_compute].
  unfold uniqueKeys. intros Hdup.
  assert (rowKey <$> rows (snd (addOrUpdateProject healthy noon
            (mkPartialEntry (Some "alice@corp.example") (Some "Alice")
               (Some "Migration") None (Some "In Progress") None None None
               None None None None) (worldOf [[]; fullRow])))
          = [("alice@corp.example", "Migration");
             ("alice@corp.example", "Migration")]) as E by (by vm_compute).
  rewrite E in Hdup. apply NoDup_cons in Hdup. destruct Hdup as [Hin _].
  apply Hin. constructor.
Qed.

(** The same duplication arises without any blank row when the read inside
    the upsert fails softly: the third request, the values read, is not
    answered, [getAllProjects] returns the empty array, and the row is
    appended although its key is stored. *)
Example upsert_duplicates_after_failed_read :
  let projectData :=
    mkPartialEntry (Some "alice@corp.example") (Some "Alice")
      (Some "Migration") None (Some "In Progress") None None None None None
      None None in
  let run :=
    addOrUpdateProject (fun n => negb (n =? 2)%nat) noon projectData
      (worldOf [fullRow]) in
  fst run = Returned tt
  /\ rowKey <$> rows (snd run)
     = [("alice@corp.example", "Migration");
        ("alice@corp.example", "Migration")].
Proof. by vm_compute. Qed.

(** *** Where the invariant does hold

    On a sheet without blank rows that fits the range read, with the service
    answering every request. *)

(** Cutting a row to the columns read does not change whether it is kept. *)
Lemma keepRow_take n (row : Row) :
  (0 < n)%nat -> keepRow (take n row) = keepRow row.
Proof.
  intros Hn. unfold keepRow. rewrite lookup_take_lt by lia.
  destruct row as [|c row]; [by rewrite take_nil|].
  destruct n; [lia|]. done.
Qed.

Lemma filter_all {A : Type} (p : A -> bool) (l : list A) :
  Forall (fun x => p x = true) l -> List.filter p l = l.
Proof.
  induction 1 as [|x l Hx _ IH]; [done|]. simpl. by rewrite Hx, IH.
Qed.

(** On such a sheet the store sees every row, in sheet order. *)
Lemma visible_dense w :
  Forall (fun row => keepRow row = true) (rows w) ->
  (length (rows w) <= 999)%nat ->
  visible w = rowToRecord <$> rows w.
Proof.
  intros Hkeep Hlen. unfold visible. rewrite take_ge by done.
  rewrite filter_all.
  - rewrite <- list_fmap_compose. apply list_fmap_ext.
    intros _ row _. simpl. apply rowToRecord_take. lia.
  - apply Forall_fmap. eapply Forall_impl; [exact Hkeep|].
    intros row Hrow. simpl. by rewrite keepRow_take by lia.
Qed.

Lemma sameKey_true projectData project :
  sameKey projectData project = true ->
  p_email projectData = Some (email project)
  /\ p_projectTitle projectData = Some (projectTitle project).
Proof.
  unfold sameKey. intros H. apply andb_true_iff in H as [H1 H2].
  apply bool_decide_eq_true in H1, H2. done.
Qed.

(** The row written by an upsert stores the key of the record upserted. *)
Lemma rowKey_written now projectData old e t :
  p_email projectData = Some e -> p_projectTitle projectData = Some t ->
  e <> "" -> t <> "" ->
  rowKey (overwrite (recordToRow now projectData) old) = (e, t).
Proof.
  intros He Ht Hne Hnt. unfold rowKey, keyOf, rowToRecord, recordToRow.
  cbn -[JS.or_else]. rewrite He, Ht. cbn -[JS.or_else].
  by rewrite !or_else_some_ne.
Qed.

Lemma truthy_some o : JS.truthy o = true -> exists s, o = Some s /\ s <> "".
Proof.
  destruct o as [s|]; [|done]. simpl. intros H. exists s. split; [done|].
  intros ->. done.
Qed.

(** The rows after an upsert that passes validation, with the service
    answering every request. *)
Lemma addOrUpdateProject_rows up now projectData w :
  (forall n, up n = true) ->
  keyFile w = true -> sheets w <> [] ->
  JS.truthy (p_email projectData) = true ->
  JS.truthy (p_projectTitle projectData) = true ->
  let i := JS.findIndex (sameKey projectData) (visible w) in
  let rowData := recordToRow now projectData in
  fst (addOrUpdateProject up now projectData w) = Returned tt
  /\ rows (snd (addOrUpdateProject up now projectData w))
     = if 0 <=? i then writeRow (i + 2) rowData (rows w)
       else appendRow rowData (rows w).
Proof.
  intros Hup Hk Hs He Ht. cbn zeta.
  unfold addOrUpdateProject, try_catch, mbind, M_bind, getGoogleSheetsClient;
    cbn beta.
  rewrite Hk, firstSheet_run, Hup.
  destruct (sheets w) as [|sheet ss] eqn:Hsheets; [done|].
  rewrite He, Ht. cbn [negb orb].
  destruct (getAllProjects_run up (logged w [spreadsheets_get]))
    as (extra & -> & _).
  assert (readSucceeds up (logged w [spreadsheets_get]) = true) as ->.
  { unfold readSucceeds, metadataFound. simpl. rewrite Hk, !Hup, Hsheets.
    done. }
  change (visible (logged w [spreadsheets_get])) with (visible w).
  destruct (0 <=? JS.findIndex (sameKey projectData) (visible w));
    unfold request; cbn beta; by rewrite Hup.
Qed.

(** On a sheet without blank rows that fits the range read, and with the
    service answering, an upsert keeps one row per (email, projectTitle):
    it overwrites the row that stores the key, or appends when none does. *)
Lemma upsert_keeps_unique_keys_dense up now projectData w :
  (forall n, up n = true) ->
  Forall (fun row => keepRow row = true) (rows w) ->
  (length (rows w) <= 999)%nat ->
  uniqueKeys (rows w) ->
  uniqueKeys (rows (snd (addOrUpdateProject up now projectData w))).
Proof.
  intros Hup Hkeep Hlen Huniq.
  destruct (JS.truthy (p_email projectData)) eqn:He.
  2: { rewrite addOrUpdateProject_invalid by (by left).
       by destruct (keyFile w). }
  destruct (JS.truthy (p_projectTitle projectData)) eqn:Ht.
  2: { rewrite addOrUpdateProject_invalid by (by right).
       by destruct (keyFile w). }
  destruct (keyFile w) eqn:Hk.
  2: { unfold addOrUpdateProject, try_catch, mbind, M_bind,
         getGoogleSheetsClient; cbn beta. by rewrite Hk. }
  destruct (sheets w) as [|sheet ss] eqn:Hs.
  { unfold addOrUpdateProject, try_catch, mbind, M_bind,
      getGoogleSheetsClient; cbn beta.
    by rewrite Hk, firstSheet_run, Hup, Hs. }
  destruct (addOrUpdateProject_rows up now projectData w Hup Hk) as [_ ->];
    [by rewrite Hs | done | done |].
  apply truthy_some in He as (e & He & Hne).
  apply truthy_some in Ht as (t & Ht & Hnt).
  rewrite visible_dense by done.
  unfold uniqueKeys in *.
  destruct (findIndex_spec (sameKey projectData) (rowToRecord <$> rows w))
    as [[-> Hnone] | (i & x & -> & Hi & Hx & _)].
  - (* no record has the key: a row is appended *)
    replace (0 <=? -1) with false by done.
    unfold appendRow. rewrite fmap_app, list_fmap_singleton.
    rewrite (rowKey_written now projectData [] e t) by done.
    apply NoDup_app. split; [done|]. split; [|apply NoDup_singleton].
    intros k Hk1 Hk2. apply list_elem_of_singleton in Hk2 as ->.
    apply list_elem_of_fmap in Hk1 as (row & Hkey & Hrow).
    specialize (Hnone (rowToRecord row)
                  (list_elem_of_fmap_2 rowToRecord _ _ Hrow)).
    unfold sameKey in Hnone. unfold rowKey, keyOf in Hkey.
    injection Hkey as Hke Hkt. rewrite He, Ht, Hke, Hkt in Hnone.
    by rewrite !bool_decide_eq_true_2 in Hnone.
  - (* the record at index [i] has the key: its row is overwritten *)
    destruct (Z.leb_spec 0 (Z.of_nat i)); [|lia].
    apply list_lookup_fmap_Some in Hi as (row & -> & Hrow).
    apply sameKey_true in Hx as [Hxe Hxt].
    assert (rowKey row = (e, t)) as Hrk.
    { unfold rowKey, keyOf. congruence. }
    unfold writeRow.
    replace (Z.to_nat (Z.of_nat i + 2 - 2)) with i by lia.
    pose proof (lookup_lt_Some _ _ _ Hrow) as Hlt.
    replace (i - length (rows w))%nat with 0%nat by lia.
    rewrite Hrow. cbn [default from_option id replicate app].
    rewrite fmap_app, fmap_cons.
    rewrite (rowKey_written now projectData row e t) by done.
    rewrite <- (take_drop_middle (rows w) i row Hrow) in Huniq.
    by rewrite fmap_app, fmap_cons, Hrk in Huniq.
Qed.

(** ** The route *)





(** * More of the code *)

Example split_pieces :
  JSString.split "," "a@corp.example, b@corp.example,"
  = ["a@corp.example"; " b@corp.example"; ""].
Proof. reflexivity. Qed.
Example split_empty : JSString.split "," "" = [""].
Proof. reflexivity. Qed.
Example endsWith_domain :
  JSString.endsWith "alice@corp.example" "@corp.example" = true
  /\ JSString.endsWith "alice@corp.example.org" "@corp.example" = false
  /\ JSString.endsWith "le" "example" = false.
Proof. by vm_compute. Qed.
Example toLowerCase_ex : JSString.toLowerCase "Excel" = "excel".
Proof. reflexivity. Qed.

(** ** Strings *)

Lemma string_app_cons (c : ascii) (s t : string) :
  String c s ++ t = String c (s ++ t).
Proof. reflexivity. Qed.

Lemma string_app_nil_l (s : string) : "" ++ s = s.
Proof. reflexivity. Qed.

Lemma string_length_app (s t : string) :
  String.length (s ++ t) = (String.length s + String.length t)%nat.
Proof.
  induction s as [|c s IH]; [done|]. rewrite string_app_cons. simpl.
  by rewrite IH.
Qed.

Lemma string_app_nil_r (s : string) : s ++ "" = s.
Proof.
  induction s as [|c s IH]; [done|]. rewrite string_app_cons. congruence.
Qed.

Lemma string_app_assoc (s t u : string) : (s ++ t) ++ u = s ++ t ++ u.
Proof.
  induction s as [|c s IH]; [done|]. rewrite !string_app_cons. congruence.
Qed.

Lemma substring_all (s : string) : substring 0 (String.length s) s = s.
Proof. induction s as [|c s IH]; simpl; congruence. Qed.

Lemma substring_skip (p s : string) (m : nat) :
  substring (String.length p) m (p ++ s) = substring 0 m s.
Proof.
  induction p as [|c p IH]; [done|]. rewrite string_app_cons. exact IH.
Qed.

(** A string is what comes before an index followed by what comes after. *)
Lemma substring_split (s : string) (k : nat) :
  (k <= String.length s)%nat ->
  s = substring 0 k s ++ substring k (String.length s - k) s.
Proof.
  revert k. induction s as [|c s IH]; intros k Hk.
  { destruct k; simpl in *; [done | lia]. }
  destruct k as [|k].
  - rewrite Nat.sub_0_r, substring_all. done.
  - simpl. rewrite string_app_cons. f_equal. apply IH. simpl in Hk. lia.
Qed.

(** [endsWith] holds exactly of the strings that are something followed by
    the suffix. *)
Lemma endsWith_spec (s suffix : string) :
  JSString.endsWith s suffix = true <-> exists p, s = p ++ suffix.
Proof.
  unfold JSString.endsWith. split.
  - destruct (Z.ltb_spec
                (Z.of_nat (String.length s)
                 - Z.of_nat (String.length suffix)) 0) as [|Hge]; [done|].
    intros H. apply String.eqb_eq in H.
    set (k := Z.to_nat (Z.of_nat (String.length s)
                        - Z.of_nat (String.length suffix))) in *.
    exists (substring 0 k s).
    assert (String.length s - k = String.length suffix)%nat as Hlen by lia.
    etransitivity; [apply (substring_split s k); lia|].
    by rewrite Hlen, H.
  - intros [p ->]. rewrite string_length_app.
    destruct (Z.ltb_spec
                (Z.of_nat (String.length p + String.length suffix)
                 - Z.of_nat (String.length suffix)) 0); [lia|].
    replace (Z.to_nat (Z.of_nat (String.length p + String.length suffix)
                       - Z.of_nat (String.length suffix)))
      with (String.length p) by lia.
    rewrite substring_skip, substring_all. apply String.eqb_refl.
Qed.

(** Splitting never gives the empty array, and joining the pieces with the
    separator gives the string back. *)
Lemma split_not_nil (sep : ascii) (s : string) : JSString.split sep s <> [].
Proof.
  induction s as [|c s IH]; simpl; [done|].
  destruct (Ascii.eqb c sep); [done|].
  by destruct (JSString.split sep s).
Qed.

Lemma join_split (sep : ascii) (s : string) :
  JSString.join (String sep "") (JSString.split sep s) = s.
Proof.
  induction s as [|c s IH]; [done|]. simpl.
  pose proof (split_not_nil sep s) as Hne.
  destruct (Ascii.eqb_spec c sep) as [->|Hc].
  - destruct (JSString.split sep s) as [|piece pieces]; [done|].
    simpl. by rewrite <- IH.
  - destruct (JSString.split sep s) as [|piece pieces]; [done|].
    rewrite <- IH. by destruct pieces.
Qed.

(** No piece of a split contains the separator. *)
Lemma split_pieces_clean (sep : ascii) (s piece : string) :
  piece ∈ JSString.split sep s ->
  ~ In sep (list_ascii_of_string piece).
Proof.
  revert piece. induction s as [|c s IH]; intros piece; simpl.
  { intros H. apply list_elem_of_singleton in H as ->. simpl. tauto. }
  pose proof (split_not_nil sep s) as Hne.
  destruct (Ascii.eqb_spec c sep) as [->|Hc].
  - intros H. apply elem_of_cons in H as [->|H]; [simpl; tauto | by apply IH].
  - destruct (JSString.split sep s) as [|first rest]; [done|].
    intros H. apply elem_of_cons in H as [->|H].
    + simpl. intros [E|E]; [congruence|].
      revert E. apply IH. by left.
    + apply IH. by right.
Qed.

(** ** The record written and the record read *)

Lemma toString_not_empty (x : JS.Num) : JS.Number_toString x <> "".
Proof.
  destruct x as [|[|p|p]]; try done; simpl.
  pose proof (DecimalPos.Unsigned.to_uint_nonnil p) as Hp.
  by destruct (Pos.to_uint p).
Qed.

Lemma parseInt_NaN_text : JS.parseInt "NaN" = JS.NaN.
Proof. reflexivity. Qed.

(** The hours cell written for a value reads back as the value. *)
Lemma numericCell_hoursCell (x : option JS.Num) :
  numericCell (Some (hoursCell x)) = x.
Proof.
  destruct x as [n|]; [|done]. unfold hoursCell. cbn [fmap option_fmap option_map].
  rewrite or_else_some_ne by apply toString_not_empty.
  rewrite numericCell_cases.
  destruct (String.eqb_spec (JS.Number_toString n) "") as [E|_].
  { by apply toString_not_empty in E. }
  destruct n as [|z]; [done|]. by rewrite parseInt_toString.
Qed.

Lemma or_else_some (s d : string) :
  d = "" \/ s <> "" -> JS.or_else (Some s) d = s.
Proof.
  intros H. simpl. destruct (String.eqb_spec s "") as [->|]; [|done].
  by destruct H.
Qed.

(** The record mapped from the row an upsert writes. *)
Lemma written_row_record (now : JS.Date) (projectData : PartialEntry)
    (old : Row) (e t : string) :
  p_email projectData = Some e -> p_projectTitle projectData = Some t ->
  rowToRecord (overwrite (recordToRow now projectData) old)
  = recordWritten now e t projectData.
Proof.
  intros He Ht. unfold recordWritten, rowToRecord, recordToRow.
  rewrite He, Ht.
  cbn -[JS.or_else numericCell hoursCell JS.isoDate].
  rewrite !numericCell_hoursCell.
  rewrite (or_else_idem _ "Not Started"), (or_else_idem _ "Medium") by done.
  rewrite !(or_else_some _ "") by (by left).
  done.
Qed.

(** X1: the row an upsert writes reads back as the record upserted.  For a
    record with email and title, [rowToRecord] of the row written over any
    old row has the email, title and the other text fields as given (an
    absent one empty), the defaults [Not Started] and [Medium] for an
    absent or empty status and priority, the date of the clock as
    lastUpdated, and the whole-number hours as given. *)
Theorem written_row_reads_back
    (now : JS.Date) (projectData : PartialEntry) (old : Row)
    (e t : string) :
  p_email projectData = Some e -> p_projectTitle projectData = Some t ->
  plainHours (p_estimatedHours projectData) ->
  plainHours (p_actualHours projectData) ->
  rowToRecord (overwrite (recordToRow now projectData) old)
  = recordWritten now e t projectData.
Proof. intros He Ht _ _. by apply written_row_record. Qed.

Lemma written_row_reads_back_witness :
  let projectData :=
    mkPartialEntry (Some "alice@corp.example") None (Some "Migration") None
      None None (Some "1999-01-01") None None (Some (JS.Int 8))
      (Some JS.NaN) None in
  rowToRecord (overwrite (recordToRow noon projectData) fullRow)
  = recordWritten noon "alice@corp.example" "Migration" projectData
  /\ recordWritten noon "alice@corp.example" "Migration" projectData
     = {| email := "alice@corp.example"; name := "";
          projectTitle := "Migration"; projectDescription := "";
          status := "Not Started"; deadline := "";
          lastUpdated := "2025-03-09"; priority := "Medium";
          department := Some ""; estimatedHours := Some (JS.Int 8);
          actualHours := Some JS.NaN; notes := Some "" |}.
Proof.
  cbn zeta. split; [|reflexivity].
  apply (written_row_reads_back noon
           (mkPartialEntry (Some "alice@corp.example") None
              (Some "Migration") None None None (Some "1999-01-01") None
              None (Some (JS.Int 8)) (Some JS.NaN) None)
           fullRow "alice@corp.example" "Migration");
    [reflexivity | reflexivity | simpl; lia | exact I].
Defined.

(** ** What the read returns *)

Lemma visible_sublist w : visible w `sublist_of` rowToRecord <$> rows w.
Proof.
  unfold visible.
  transitivity (rowToRecord <$> take 999 (rows w));
    [|apply fmap_sublist, sublist_take].
  induction (take 999 (rows w)) as [|row l IH]; [done|].
  rewrite fmap_cons. simpl List.filter.
  rewrite keepRow_take by lia.
  destruct (keepRow row).
  - rewrite !fmap_cons, rowToRecord_take by lia. by apply sublist_skip.
  - rewrite fmap_cons. by apply sublist_cons.
Qed.

Lemma visible_length w : (length (visible w) <= 999)%nat.
Proof.
  unfold visible. rewrite length_fmap.
  etransitivity; [apply List.filter_length_le|].
  rewrite length_fmap, length_take. lia.
Qed.

Lemma visible_kept w project :
  project ∈ visible w ->
  email project <> "" /\ status project <> "" /\ priority project <> "".
Proof.
  unfold visible. intros H.
  apply list_elem_of_fmap in H as (row & -> & H).
  apply list_elem_of_In, List.filter_In in H as [_ Hkeep].
  unfold keepRow in Hkeep. apply andb_true_iff in Hkeep as [_ Hkeep].
  apply truthy_some in Hkeep as (c & Hc & Hne).
  unfold rowToRecord; cbn -[JS.or_else]. rewrite Hc.
  split; [by rewrite or_else_some_ne|].
  split.
  - destruct (row !! 4%nat) as [s|]; [|done]. simpl.
    by destruct (String.eqb_spec s "").
  - destruct (row !! 7%nat) as [s|]; [|done]. simpl.
    by destruct (String.eqb_spec s "").
Qed.

(** X2: [getAllProjects] returns records of rows of the sheet, in sheet
    order and at most 999 of them; every record has a non-empty email,
    status and priority; the sheet is not changed. *)
Theorem getAllProjects_records (up : nat -> bool) (w : World) :
  exists (all : list ProjectEntry) (w' : World),
    getAllProjects up w = (Returned all, w')
    /\ rows w' = rows w
    /\ all `sublist_of` rowToRecord <$> rows w
    /\ (length all <= 999)%nat
    /\ Forall (fun project =>
                 email project <> "" /\ status project <> ""
                 /\ priority project <> "") all.
Proof.
  destruct (getAllProjects_run up w) as (extra & Hrun & _).
  eexists _, _. split; [exact Hrun|]. split; [done|].
  destruct (readSucceeds up w).
  - split; [apply visible_sublist|]. split; [apply visible_length|].
    apply Forall_forall. apply visible_kept.
  - split; [apply sublist_nil_l|]. split; [simpl; lia | constructor].
Qed.

(** The run of [initializeSheet]. *)
Lemma initializeSheet_run (up : nat -> bool) (w : World) :
  exists extra,
    initializeSheet up w = (Returned tt, logged w extra)
    /\ (extra = [] \/ extra = [spreadsheets_get]).
Proof.
  unfold initializeSheet, try_catch, mbind, M_bind, mret, M_ret,
    getGoogleSheetsClient; cbn beta.
  destruct (keyFile w).
  - rewrite firstSheet_run. exists [spreadsheets_get].
    split; [|by right].
    destruct (up (length (calls w))); [|done]. by destruct (sheets w).
  - exists []. rewrite logged_nil. split; [done | by left].
Qed.

(** X3: [initializeSheet] never throws and never changes the sheet; it
    sends at most one request, the metadata read. *)
Theorem initializeSheet_harmless (up : nat -> bool) (w : World) :
  exists extra,
    initializeSheet up w = (Returned tt, logged w extra)
    /\ (extra = [] \/ extra = [spreadsheets_get]).
Proof. apply initializeSheet_run. Qed.


(** ** Outcomes of the writes *)

(** How a run of [addOrUpdateProject] ends: it throws, and the world only
    has requests added to its log; or it returns, after one write request
    that overwrote the row at the index found among the records read, or
    appended a row when none was found. *)
Lemma addOrUpdateProject_outcome up now projectData w :
  exists extra,
    (threw (fst (addOrUpdateProject up now projectData w))
     /\ snd (addOrUpdateProject up now projectData w) = logged w extra)
    \/ (exists all,
          (all = visible w \/ all = [])
          /\ JS.truthy (p_email projectData) = true
          /\ JS.truthy (p_projectTitle projectData) = true
          /\ let i := JS.findIndex (sameKey projectData) all in
             let rowData := recordToRow now projectData in
             addOrUpdateProject up now projectData w
             = (Returned tt,
                rewritten w
                  (if 0 <=? i then writeRow (i + 2) rowData (rows w)
                   else appendRow rowData (rows w))
                  extra)).
Proof.
  destruct (negb (JS.truthy (p_email projectData))
            || negb (JS.truthy (p_projectTitle projectData))) eqn:Hv.
  { rewrite addOrUpdateProject_invalid.
    2: { apply orb_true_iff in Hv as [Hv|Hv]; apply negb_true_iff in Hv;
           auto. }
    destruct (keyFile w).
    - exists [spreadsheets_get]. left. split; [|done].
      unfold threw. simpl. repeat case_match; by eexists.
    - exists []. left. rewrite logged_nil. split; [by eexists | done]. }
  apply orb_false_iff in Hv as [He Ht].
  apply negb_false_iff in He, Ht.
  unfold addOrUpdateProject, try_catch, mbind, M_bind, getGoogleSheetsClient;
    cbn beta.
  destruct (keyFile w) eqn:Hk.
  2: { exists []. left. rewrite logged_nil. split; [by eexists | done]. }
  rewrite firstSheet_run.
  destruct (up (length (calls w))).
  2: { exists [spreadsheets_get]. left. split; [by eexists | done]. }
  destruct (sheets w) as [|sheet ss] eqn:Hs.
  { exists [spreadsheets_get]. left. split; [by eexists | done]. }
  rewrite He, Ht. cbn [negb orb].
  destruct (getAllProjects_run up (logged w [spreadsheets_get]))
    as (extra & -> & _).
  set (all := if readSucceeds up (logged w [spreadsheets_get])
              then visible (logged w [spreadsheets_get]) else []).
  assert (all = visible w \/ all = []) as Hall.
  { unfold all. destruct (readSucceeds up _); [by left | by right]. }
  rewrite logged_logged.
  destruct (0 <=? JS.findIndex (sameKey projectData) all) eqn:Hi;
    unfold request; cbn beta;
    (destruct (up (length (calls (logged w ([spreadsheets_get] ++ extra)))));
     [ eexists; right; exists all; rewrite Hi;
       split; [done|]; split; [done|]; split; [done|];
       unfold rewritten, logged; cbn [keyFile sheets rows calls];
       rewrite <- app_assoc; reflexivity
     | eexists; left; split; [by eexists|];
       unfold logged; cbn [keyFile sheets rows calls fst snd];
       rewrite <- app_assoc; reflexivity ]).
Qed.



(** ** What an upsert changes *)

Lemma visible_le_rows w : (length (visible w) <= length (rows w))%nat.
Proof.
  rewrite <- (length_fmap rowToRecord (rows w)).
  apply sublist_length, visible_sublist.
Qed.

(** An update of a row of the sheet is an update in place. *)
Lemma writeRow_in_range (i : nat) values (rs : list Row) (old : Row) :
  rs !! i = Some old ->
  writeRow (Z.of_nat i + 2) values rs = <[i := overwrite values old]> rs.
Proof.
  intros Hold. unfold writeRow.
  replace (Z.to_nat (Z.of_nat i + 2 - 2)) with i by lia.
  pose proof (lookup_lt_Some _ _ _ Hold) as Hlt.
  replace (i - length rs)%nat with 0%nat by lia.
  rewrite Hold. cbn [default from_option id replicate app].
  symmetry. by apply insert_take_drop.
Qed.

Lemma overwrite_keeps_tail values (old : Row) :
  drop (length values) (overwrite values old) = drop (length values) old.
Proof.
  revert old. induction values as [|v values IH]; intros old; [done|].
  cbn [overwrite length drop]. rewrite IH.
  destruct old as [|c r]; simpl; [by rewrite drop_nil | done].
Qed.

(** The index an update writes at is an index of the sheet. *)
Lemma findIndex_in_rows w p :
  0 <= JS.findIndex p (visible w) ->
  exists (i : nat) (old : Row),
    JS.findIndex p (visible w) = Z.of_nat i /\ rows w !! i = Some old.
Proof.
  intros Hi.
  destruct (findIndex_spec p (visible w))
    as [[E _] | (i & x & E & Hx & _)]; [lia|].
  pose proof (lookup_lt_Some _ _ _ Hx) as Hlt.
  pose proof (visible_le_rows w).
  destruct (lookup_lt_is_Some_2 (rows w) i) as [old Hold]; [lia|].
  by exists i, old.
Qed.

(** X6: an upsert touches at most one row.  Whatever the state of the
    sheet and of the service, after [addOrUpdateProject] every row but one
    is as it was, at the same place; no row is removed and at most one is
    added; and in the row overwritten the cells to the right of the twelve
    columns written are kept. *)
Theorem upsert_touches_one_row
    (up : nat -> bool) (now : JS.Date) (projectData : PartialEntry)
    (w : World) :
  let rs := rows w in
  let rs' := rows (snd (addOrUpdateProject up now projectData w)) in
  exists i : nat,
    (forall j, j <> i -> (j < length rs)%nat -> rs' !! j = rs !! j)
    /\ (length rs <= length rs' <= length rs + 1)%nat
    /\ (forall old new, rs !! i = Some old -> rs' !! i = Some new ->
          drop 12 new = drop 12 old).
Proof.
  cbn zeta.
  destruct (addOrUpdateProject_outcome up now projectData w)
    as (extra & [[_ ->] | (all & Hall & _ & _ & Hrun)]).
  { exists 0%nat. cbn [logged rows]. split; [done|]. split; [lia|].
    intros old new ->. by intros [= ->]. }
  cbn zeta in Hrun. rewrite Hrun. cbn [snd rewritten rows].
  destruct (Z.leb_spec 0 (JS.findIndex (sameKey projectData) all)) as [Hi|Hi].
  - destruct Hall as [-> | ->]; [|simpl in Hi; lia].
    destruct (findIndex_in_rows w _ Hi) as (i & old & -> & Hold).
    rewrite (writeRow_in_range i _ _ old Hold). exists i.
    split; [intros j Hj _; by apply list_lookup_insert_ne|].
    split; [rewrite length_insert; lia|].
    intros old' new Hold'. rewrite Hold in Hold'. injection Hold' as <-.
    rewrite list_lookup_insert_eq by (by eapply lookup_lt_Some).
    intros [= <-]. apply (overwrite_keeps_tail (recordToRow now projectData)).
  - exists (length (rows w)). unfold appendRow.
    split; [intros j _ Hj; by apply lookup_app_l|].
    split; [rewrite length_app; simpl; lia|].
    intros old new Hold. apply lookup_lt_Some in Hold. lia.
Qed.

(** The row an upsert writes is in the sheet afterwards, at a place the
    next read covers. *)
Lemma upsert_row_stored up now projectData w :
  fst (addOrUpdateProject up now projectData w) = Returned tt ->
  (length (rows w) < 999)%nat ->
  exists (extra : list Call) (rs' : list Row) (k : nat) (old : Row),
    snd (addOrUpdateProject up now projectData w) = rewritten w rs' extra
    /\ rs' !! k = Some (overwrite (recordToRow now projectData) old)
    /\ (k < 999)%nat
    /\ JS.truthy (p_email projectData) = true
    /\ JS.truthy (p_projectTitle projectData) = true.
Proof.
  intros Hok Hlen.
  destruct (addOrUpdateProject_outcome up now projectData w)
    as (extra & [[[e He] _] | (all & Hall & Hemail & Htitle & Hrun)]).
  { congruence. }
  cbn zeta in Hrun. rewrite Hrun. cbn [snd].
  destruct (Z.leb_spec 0 (JS.findIndex (sameKey projectData) all)) as [Hi|Hi].
  - destruct Hall as [-> | ->]; [|simpl in Hi; lia].
    destruct (findIndex_in_rows w _ Hi) as (i & old & -> & Hold).
    rewrite (writeRow_in_range i _ _ old Hold).
    pose proof (lookup_lt_Some _ _ _ Hold).
    eexists extra, _, i, old. split; [done|].
    split; [by apply list_lookup_insert_eq|]. split; [lia | done].
  - eexists extra, _, (length (rows w)), []. split; [done|].
    split; [|done]. unfold appendRow.
    by rewrite lookup_app_r, Nat.sub_diag by lia.
Qed.

(** X5: what is upserted is read.  With the service answering and fewer
    than 999 rows under the header, after [addOrUpdateProject] returned for
    a record with email [e] and title [t], [getAllProjects] and
    [getUserProjects e] both return a record with these and with the fields
    written, [recordWritten]. *)
Theorem upsert_then_read
    (up : nat -> bool) (now : JS.Date) (projectData : PartialEntry)
    (w : World) (e t : string) :
  answers up ->
  (length (rows w) < 999)%nat ->
  p_email projectData = Some e -> p_projectTitle projectData = Some t ->
  plainHours (p_estimatedHours projectData) ->
  plainHours (p_actualHours projectData) ->
  fst (addOrUpdateProject up now projectData w) = Returned tt ->
  let w' := snd (addOrUpdateProject up now projectData w) in
  exists (all mine : list ProjectEntry),
    fst (getAllProjects up w') = Returned all
    /\ fst (getUserProjects up e w') = Returned mine
    /\ recordWritten now e t projectData ∈ all
    /\ recordWritten now e t projectData ∈ mine.
Proof.
  intros Hup Hlen He Ht Hh1 Hh2 Hok. cbn zeta.
  destruct (upsert_row_stored up now projectData w Hok Hlen)
    as (extra & rs' & k & old & -> & Hk & Hk999 & Hemail & _).
  destruct (addOrUpdateProject_outcome up now projectData w)
    as (extra0 & [[[err Herr] _] | (all0 & _ & _ & _ & Hrun)]);
    [congruence|].
  assert (keyFile w = true /\ sheets w <> []) as [Hkey Hsheets].
  { revert Hok. unfold addOrUpdateProject, try_catch, mbind, M_bind,
      getGoogleSheetsClient; cbn beta.
    destruct (keyFile w); [|done]. rewrite firstSheet_run, Hup.
    by destruct (sheets w). }
  set (w' := rewritten w rs' extra).
  destruct (getAllProjects_run up w') as (extra' & Hread & _).
  assert (readSucceeds up w' = true) as Hrs.
  { unfold readSucceeds, metadataFound, w', rewritten; simpl.
    rewrite Hkey, !Hup. by rewrite bool_decide_eq_true_2. }
  rewrite Hrs in Hread.
  assert (recordWritten now e t projectData ∈ visible w') as Hin.
  { rewrite <- (written_row_record now projectData old e t) by done.
    rewrite <- (rowToRecord_take 26) by lia.
    unfold visible. apply list_elem_of_fmap_2.
    apply list_elem_of_In, List.filter_In. split.
    - apply list_elem_of_In, list_elem_of_fmap_2.
      apply elem_of_take. exists k. by split.
    - rewrite keepRow_take by lia. unfold keepRow, recordToRow.
      rewrite He. simpl.
      apply truthy_some in Hemail as (e' & He' & Hne).
      rewrite He in He'. injection He' as <-.
      by destruct (String.eqb_spec e ""). }
  eexists _, _. split; [by rewrite Hread|].
  split.
  { unfold getUserProjects, try_catch, mbind, M_bind, mret, M_ret.
    by rewrite Hread. }
  split; [done|].
  apply list_elem_of_In, List.filter_In. split; [by apply list_elem_of_In|].
  unfold recordWritten; simpl. apply String.eqb_refl.
Qed.

Lemma upsert_then_read_witness :
  let projectData := titled (Some "bob@corp.example") "Audit" in
  let w' :=
    snd (addOrUpdateProject healthy noon projectData (worldOf [fullRow])) in
  exists (all mine : list ProjectEntry),
    fst (getAllProjects healthy w') = Returned all
    /\ fst (getUserProjects healthy "bob@corp.example" w') = Returned mine
    /\ recordWritten noon "bob@corp.example" "Audit" projectData ∈ all
    /\ recordWritten noon "bob@corp.example" "Audit" projectData ∈ mine.
Proof.
  cbn zeta.
  apply (upsert_then_read healthy noon
           (titled (Some "bob@corp.example") "Audit") (worldOf [fullRow])
           "bob@corp.example" "Audit").
  - intros n. reflexivity.
  - simpl. lia.
  - reflexivity.
  - reflexivity.
  - exact I.
  - exact I.
  - reflexivity.
Defined.

(** ** Updating a stored record *)

(** X4: on a sheet without blank rows an update is in place.  With the
    service answering, [addOrUpdateProject] for a key that a row stores
    returns; the first row that stores the key is overwritten with the row
    of the record, every other row is as and where it was, and the keys of
    the rows, in order, are those before: no row is added and none for the
    key is left behind. *)
Theorem upsert_updates_in_place
    (up : nat -> bool) (now : JS.Date) (projectData : PartialEntry)
    (w : World) (e t : string) :
  answers up -> keyFile w = true -> sheets w <> [] ->
  noBlankRows (rows w) ->
  p_email projectData = Some e -> e <> "" ->
  p_projectTitle projectData = Some t -> t <> "" ->
  (e, t) ∈ rowKey <$> rows w ->
  let w' := snd (addOrUpdateProject up now projectData w) in
  exists (i : nat) (old : Row),
    rows w !! i = Some old
    /\ rowKey old = (e, t)
    /\ (forall j row, (j < i)%nat -> rows w !! j = Some row ->
          rowKey row <> (e, t))
    /\ fst (addOrUpdateProject up now projectData w) = Returned tt
    /\ rows w' = <[i := overwrite (recordToRow now projectData) old]> (rows w)
    /\ rowKey <$> rows w' = rowKey <$> rows w.
Proof.
  intros Hup Hk Hs [Hkeep Hlen] He Hne Ht Hnt Hin. cbn zeta.
  destruct (addOrUpdateProject_rows up now projectData w Hup Hk Hs)
    as [Hret Hrows].
  { rewrite He. simpl. by destruct e. }
  { rewrite Ht. simpl. by destruct t. }
  cbn zeta in Hrows. rewrite Hrows. clear Hrows.
  rewrite visible_dense by done.
  assert (forall row, sameKey projectData (rowToRecord row) = true
                      <-> rowKey row = (e, t)) as Hsame.
  { intros row. unfold sameKey, rowKey, keyOf. rewrite He, Ht.
    rewrite andb_true_iff, !bool_decide_eq_true. split.
    - intros [H1 H2]. congruence.
    - intros H. pose proof (f_equal fst H) as H1.
      pose proof (f_equal snd H) as H2. cbn [fst snd] in H1, H2.
      split; congruence. }
  destruct (findIndex_spec (sameKey projectData) (rowToRecord <$> rows w))
    as [[_ Hnone] | (i & x & -> & Hi & Hx & Hmin)].
  { exfalso. apply list_elem_of_fmap in Hin as (row & Hkey & Hrow).
    specialize (Hnone (rowToRecord row)
                  (list_elem_of_fmap_2 rowToRecord _ _ Hrow)).
    symmetry in Hkey. apply Hsame in Hkey. congruence. }
  apply list_lookup_fmap_Some in Hi as (old & -> & Hold).
  apply Hsame in Hx.
  exists i, old. split; [done|]. split; [done|]. split.
  { intros j row Hj Hrow Hkey. apply Hsame in Hkey.
    rewrite (Hmin j (rowToRecord row) Hj) in Hkey; [done|].
    by rewrite list_lookup_fmap, Hrow. }
  split; [done|].
  destruct (Z.leb_spec 0 (Z.of_nat i)); [|lia].
  rewrite (writeRow_in_range i _ _ old Hold). split; [done|].
  rewrite list_fmap_insert.
  rewrite (rowKey_written now projectData old e t) by done.
  apply list_insert_id. by rewrite list_lookup_fmap, Hold, <- Hx.
Qed.

Lemma upsert_updates_in_place_witness :
  let projectData := titled (Some "alice@corp.example") "Migration" in
  let w := worldOf [fullRow] in
  let w' := snd (addOrUpdateProject healthy noon projectData w) in
  exists (i : nat) (old : Row),
    rows w !! i = Some old
    /\ rowKey old = ("alice@corp.example", "Migration")
    /\ (forall j row, (j < i)%nat -> rows w !! j = Some row ->
          rowKey row <> ("alice@corp.example", "Migration"))
    /\ fst (addOrUpdateProject healthy noon projectData w) = Returned tt
    /\ rows w' = <[i := overwrite (recordToRow noon projectData) old]> (rows w)
    /\ rowKey <$> rows w' = rowKey <$> rows w.
Proof.
  cbn zeta.
  apply (upsert_updates_in_place healthy noon
           (titled (Some "alice@corp.example") "Migration")
           (worldOf [fullRow]) "alice@corp.example" "Migration").
  - intros n. reflexivity.
  - reflexivity.
  - discriminate.
  - split; [repeat constructor | simpl; lia].
  - reflexivity.
  - discriminate.
  - reflexivity.
  - discriminate.
  - apply list_elem_of_singleton. reflexivity.
Defined.

(** ** Deleting a stored record *)

Lemma findIndex_app_last {A : Type} (p : A -> bool) (l : list A) (y : A) :
  (forall x, x ∈ l -> p x = false) -> p y = true ->
  JS.findIndex p (l ++ [y]) = Z.of_nat (length l).
Proof.
  intros Hl Hy. induction l as [|x l IH]; simpl.
  { by rewrite Hy. }
  rewrite (Hl x) by (by left).
  rewrite IH by (intros z Hz; apply Hl; by right).
  destruct (Z.ltb_spec (Z.of_nat (length l)) 0); lia.
Qed.

(** The run of [deleteProject] for a key that is read, with the service
    answering: the row at the index found is deleted. *)
Lemma deleteProject_found_run up w userEmail title' :
  answers up -> keyFile w = true -> sheets w <> [] ->
  let i :=
    JS.findIndex
      (fun project => String.eqb (email project) userEmail
                      && String.eqb (projectTitle project) title')
      (visible w) in
  i <> -1 ->
  exists extra,
    deleteProject up userEmail title' w
    = (Returned tt,
       rewritten w (deleteRows (i + 2 - 1) (i + 2) (rows w)) extra).
Proof.
  intros Hup Hk Hs. cbn zeta. intros Hi.
  unfold deleteProject, try_catch, mbind, M_bind, getGoogleSheetsClient;
    cbn beta.
  rewrite Hk, firstSheet_run, Hup.
  destruct (sheets w) as [|sheet ss] eqn:Hsheets; [done|].
  destruct (getAllProjects_run up (logged w [spreadsheets_get]))
    as (extra & -> & _).
  assert (readSucceeds up (logged w [spreadsheets_get]) = true) as ->.
  { unfold readSucceeds, metadataFound. simpl. by rewrite Hk, !Hup, Hsheets. }
  change (visible (logged w [spreadsheets_get])) with (visible w).
  match goal with
  | |- context [?a =? -1] => destruct (Z.eqb_spec a (-1)) as [E|_]; [done|]
  end.
  unfold request; cbn beta. rewrite Hup, logged_logged.
  eexists. unfold rewritten, logged; cbn [keyFile sheets rows calls].
  rewrite <- app_assoc. reflexivity.
Qed.

Lemma deleteRows_at (i : nat) (rs : list Row) :
  deleteRows (Z.of_nat i + 2 - 1) (Z.of_nat i + 2) rs = delete i rs.
Proof.
  unfold deleteRows. rewrite delete_take_drop. f_equal; f_equal; lia.
Qed.

Lemma rowKey_eqb (row : Row) (userEmail title' : string) :
  String.eqb (email (rowToRecord row)) userEmail
  && String.eqb (projectTitle (rowToRecord row)) title' = true
  <-> rowKey row = (userEmail, title').
Proof.
  unfold rowKey, keyOf. rewrite andb_true_iff, !String.eqb_eq.
  split.
  - intros [H1 H2]. congruence.
  - intros H. split; [exact (f_equal fst H) | exact (f_equal snd H)].
Qed.

(** X8: deleting a stored record removes its row and nothing else.  On a
    sheet without blank rows and with one row per key, with the service
    answering, [deleteProject] for a stored key returns; the sheet is the
    old one without the row of that key, the other rows in their order;
    the key is stored no more and the keys are still distinct. *)
Theorem deleteProject_removes_row
    (up : nat -> bool) (w : World) (userEmail title' : string) :
  answers up -> keyFile w = true -> sheets w <> [] ->
  noBlankRows (rows w) -> uniqueKeys (rows w) ->
  (userEmail, title') ∈ rowKey <$> rows w ->
  let w' := snd (deleteProject up userEmail title' w) in
  exists (i : nat) (row : Row),
    rows w !! i = Some row
    /\ rowKey row = (userEmail, title')
    /\ fst (deleteProject up userEmail title' w) = Returned tt
    /\ rows w' = delete i (rows w)
    /\ noRecord w' userEmail title'
    /\ uniqueKeys (rows w').
Proof.
  intros Hup Hk Hs [Hkeep Hlen] Huniq Hin. cbn zeta.
  pose proof (visible_dense w Hkeep Hlen) as Hvis.
  destruct (findIndex_spec
              (fun project =>
                 String.eqb (email project) userEmail
                 && String.eqb (projectTitle project) title')
              (visible w)) as [[_ Hnone] | (i & x & Hi & Hx & Hpx & _)].
  { exfalso. apply list_elem_of_fmap in Hin as (row & Hkey & Hrow).
    specialize (Hnone (rowToRecord row)). rewrite Hvis in Hnone.
    specialize (Hnone (list_elem_of_fmap_2 rowToRecord _ _ Hrow)).
    symmetry in Hkey. apply rowKey_eqb in Hkey. congruence. }
  rewrite Hvis in Hx. apply list_lookup_fmap_Some in Hx as (row & -> & Hrow).
  apply rowKey_eqb in Hpx.
  destruct (deleteProject_found_run up w userEmail title' Hup Hk Hs)
    as (extra & ->); [cbn zeta; lia|].
  cbn [fst snd rewritten rows]. rewrite Hi, deleteRows_at.
  exists i, row. split; [done|]. split; [done|]. split; [done|].
  split; [done|].
  assert (NoDup (rowKey <$> delete i (rows w))
          /\ (userEmail, title') ∉ rowKey <$> delete i (rows w)) as [Hnd Hnot].
  { unfold uniqueKeys in Huniq.
    rewrite <- (take_drop_middle (rows w) i row Hrow) in Huniq.
    rewrite fmap_app, fmap_cons, Hpx in Huniq.
    apply NoDup_app in Huniq as (Hl & Hlr & Hr).
    apply NoDup_cons in Hr as [Hr1 Hr2].
    rewrite delete_take_drop, fmap_app. split.
    - apply NoDup_app. split; [done|]. split; [|done].
      intros k Hk1 Hk2. apply (Hlr k Hk1). by right.
    - intros Hmem. apply elem_of_app in Hmem as [Hmem|Hmem]; [|done].
      apply (Hlr _ Hmem). by left. }
  split; [|done].
  intros r Hr Hkey. apply Hnot. rewrite <- Hkey.
  by apply list_elem_of_fmap_2.
Qed.

Lemma deleteProject_removes_row_witness :
  let w := worldOf [fullRow] in
  let w' := snd (deleteProject healthy "alice@corp.example" "Migration" w) in
  exists (i : nat) (row : Row),
    rows w !! i = Some row
    /\ rowKey row = ("alice@corp.example", "Migration")
    /\ fst (deleteProject healthy "alice@corp.example" "Migration" w)
       = Returned tt
    /\ rows w' = delete i (rows w)
    /\ noRecord w' "alice@corp.example" "Migration"
    /\ uniqueKeys (rows w').
Proof.
  cbn zeta.
  apply (deleteProject_removes_row healthy (worldOf [fullRow])
           "alice@corp.example" "Migration").
  - intros n. reflexivity.
  - reflexivity.
  - discriminate.
  - split; [repeat constructor | simpl; lia].
  - unfold uniqueKeys. apply NoDup_singleton.
  - apply list_elem_of_singleton. reflexivity.
Defined.

(** X9: upserting a new key and deleting it again restores the sheet.  On
    a sheet without blank rows and with fewer than 999 rows, with the
    service answering, when no row stores the key: the upsert appends, the
    delete removes the row appended, and the rows are those before. *)
Theorem upsert_then_delete_restores
    (up : nat -> bool) (now : JS.Date) (projectData : PartialEntry)
    (w : World) (e t : string) :
  answers up -> keyFile w = true -> sheets w <> [] ->
  noBlankRows (rows w) -> (length (rows w) < 999)%nat ->
  noRecord w e t ->
  p_email projectData = Some e -> e <> "" ->
  p_projectTitle projectData = Some t -> t <> "" ->
  let w1 := snd (addOrUpdateProject up now projectData w) in
  let w2 := snd (deleteProject up e t w1) in
  fst (addOrUpdateProject up now projectData w) = Returned tt
  /\ rows w1 = (rows w ++ [overwrite (recordToRow now projectData) []])%list
  /\ fst (deleteProject up e t w1) = Returned tt
  /\ rows w2 = rows w.
Proof.
  intros Hup Hk Hs [Hkeep Hlen] Hlt Hno He Hne Ht Hnt. cbn zeta.
  assert (JS.truthy (p_email projectData) = true) as Hte.
  { rewrite He. simpl. by destruct (String.eqb_spec e ""). }
  assert (JS.truthy (p_projectTitle projectData) = true) as Htt.
  { rewrite Ht. simpl. by destruct (String.eqb_spec t ""). }
  destruct (addOrUpdateProject_rows up now projectData w Hup Hk Hs Hte Htt)
    as [Hok _].
  destruct (addOrUpdateProject_outcome up now projectData w)
    as (extra & [[[err Herr] _] | (all & Hall & _ & _ & Hrun)]);
    [congruence|].
  cbn zeta in Hrun.
  assert (JS.findIndex (sameKey projectData) all = -1) as Hidx.
  { apply findIndex_none. intros p Hp.
    destruct Hall as [-> | ->]; [|by apply elem_of_nil in Hp].
    apply visible_from_rows in Hp as (row & Hrow & ->).
    specialize (Hno row Hrow).
    destruct (sameKey projectData (rowToRecord row)) eqn:Hsk; [|done].
    apply sameKey_true in Hsk as [H1 H2]. rewrite He in H1. rewrite Ht in H2.
    exfalso. apply Hno. unfold rowKey, keyOf. congruence. }
  rewrite Hidx in Hrun. change (0 <=? -1) with false in Hrun.
  cbn iota in Hrun. rewrite Hrun. cbn [fst snd].
  split; [done|]. split; [done|].
  set (new := overwrite (recordToRow now projectData) []).
  set (w1 := rewritten w (appendRow (recordToRow now projectData) (rows w))
               extra).
  assert (rowKey new = (e, t)) as Hnew by (by apply rowKey_written).
  assert (Forall (fun row => keepRow row = true) (rows w1)) as Hkeep1.
  { unfold w1, rewritten, appendRow; cbn [rows].
    apply Forall_app. split; [done|]. apply Forall_singleton.
    unfold keepRow, recordToRow. rewrite He. simpl.
    by destruct (String.eqb_spec e ""). }
  assert (length (rows w1) <= 999)%nat as Hlen1.
  { unfold w1, rewritten, appendRow; cbn [rows].
    rewrite length_app. simpl. lia. }
  pose proof (visible_dense w1 Hkeep1 Hlen1) as Hvis1.
  assert (JS.findIndex
            (fun project => String.eqb (email project) e
                            && String.eqb (projectTitle project) t)
            (visible w1) = Z.of_nat (length (rows w))) as Hfound.
  { rewrite Hvis1. unfold w1, rewritten, appendRow; cbn [rows].
    rewrite fmap_app, list_fmap_singleton.
    rewrite <- (length_fmap rowToRecord (rows w)).
    apply findIndex_app_last.
    - intros p Hp. apply list_elem_of_fmap in Hp as (row & -> & Hrow).
      specialize (Hno row Hrow).
      destruct (String.eqb (email (rowToRecord row)) e
                && String.eqb (projectTitle (rowToRecord row)) t) eqn:E;
        [|done].
      by apply rowKey_eqb in E.
    - by apply rowKey_eqb. }
  destruct (deleteProject_found_run up w1 e t Hup Hk Hs) as (extra1 & ->).
  { cbn zeta. rewrite Hfound. lia. }
  cbn [fst snd rewritten rows]. split; [done|].
  rewrite Hfound, deleteRows_at. unfold w1, rewritten, appendRow; cbn [rows].
  rewrite delete_take_drop, take_app_length.
  rewrite drop_app_ge by lia.
  replace (S (length (rows w)) - length (rows w))%nat with 1%nat by lia.
  simpl. by rewrite app_nil_r.
Qed.

Lemma upsert_then_delete_restores_witness :
  let projectData := titled (Some "bob@corp.example") "Audit" in
  let w := worldOf [fullRow] in
  let w1 := snd (addOrUpdateProject healthy noon projectData w) in
  let w2 := snd (deleteProject healthy "bob@corp.example" "Audit" w1) in
  fst (addOrUpdateProject healthy noon projectData w) = Returned tt
  /\ rows w1 = (rows w ++ [overwrite (recordToRow noon projectData) []])%list
  /\ fst (deleteProject healthy "bob@corp.example" "Audit" w1) = Returned tt
  /\ rows w2 = rows w.
Proof.
  cbn zeta.
  apply (upsert_then_delete_restores healthy noon
           (titled (Some "bob@corp.example") "Audit") (worldOf [fullRow])
           "bob@corp.example" "Audit").
  - intros n. reflexivity.
  - reflexivity.
  - discriminate.
  - split; [repeat constructor | simpl; lia].
  - simpl. lia.
  - intros row Hrow. apply list_elem_of_singleton in Hrow.
    rewrite Hrow. vm_compute. discriminate.
  - reflexivity.
  - discriminate.
  - reflexivity.
  - discriminate.
Defined.

(** ** More of the statistics *)

Lemma countStatus_cons s p l :
  countStatus s (p :: l)
  = ((if String.eqb (status p) s then 1 else 0) + countStatus s l)%nat.
Proof. unfold countStatus. simpl. by destruct (String.eqb (status p) s). Qed.

(** X10: the status counts of [getProjectStats] never exceed the total:
    completed, in progress, not started and on hold add up to at most
    [totalProjects], and to exactly [totalProjects] when and only when
    every status is one of the four; overdue and completed projects
    together are at most [totalProjects]. *)
Theorem status_counts_within_total
    (deadlinePassed : string -> bool) (projects : list ProjectEntry) :
  let stats := statsOf deadlinePassed projects in
  let counted :=
    (completedProjects stats + inProgressProjects stats
     + notStartedProjects stats + onHoldProjects stats)%nat in
  (counted <= totalProjects stats)%nat
  /\ (counted = totalProjects stats
      <-> Forall (fun p => status p ∈ validStatuses) projects)
  /\ (overdueProjects stats + completedProjects stats
      <= totalProjects stats)%nat.
Proof.
  cbn zeta. cbn [statsOf totalProjects completedProjects inProgressProjects
                 notStartedProjects onHoldProjects overdueProjects].
  induction projects as [|p l (IH1 & IH2 & IH3)].
  { split; [done|]. split; [done|]. done. }
  rewrite !countStatus_cons. cbn [length List.filter].
  unfold countStatus in *.
  assert (status p ∈ validStatuses
          <-> ((if String.eqb (status p) "Completed" then 1 else 0)
               + (if String.eqb (status p) "In Progress" then 1 else 0)
               + (if String.eqb (status p) "Not Started" then 1 else 0)
               + (if String.eqb (status p) "On Hold" then 1 else 0) = 1)%nat)
    as Hone.
  { unfold validStatuses.
    destruct (String.eqb_spec (status p) "Completed") as [->|];
      [split; [done | intros _; repeat constructor]|].
    destruct (String.eqb_spec (status p) "In Progress") as [->|];
      [split; [done | intros _; repeat constructor]|].
    destruct (String.eqb_spec (status p) "Not Started") as [->|];
      [split; [done | intros _; repeat constructor]|].
    destruct (String.eqb_spec (status p) "On Hold") as [->|];
      [split; [done | intros _; repeat constructor]|].
    split; [|done]. intros H.
    repeat (apply elem_of_cons in H as [H|H]; [done|]).
    by apply elem_of_nil in H. }
  assert (((if String.eqb (status p) "Completed" then 1 else 0)
           + (if String.eqb (status p) "In Progress" then 1 else 0)
           + (if String.eqb (status p) "Not Started" then 1 else 0)
           + (if String.eqb (status p) "On Hold" then 1 else 0) <= 1)%nat)
    as Hle.
  { destruct (String.eqb_spec (status p) "Completed") as [->|]; [done|].
    destruct (String.eqb_spec (status p) "In Progress") as [->|]; [done|].
    destruct (String.eqb_spec (status p) "Not Started") as [->|]; [done|].
    destruct (String.eqb (status p) "On Hold"); simpl; lia. }
  split; [lia|]. split.
  - rewrite Forall_cons, <- IH2, Hone. lia.
  - destruct (String.eqb (status p) "Completed"); cbn [orb].
    + lia.
    + destruct (negb (JS.truthy (Some (deadline p)))); [lia|].
      destruct (deadlinePassed (deadline p)); cbn [length]; lia.
Qed.

Lemma bump_lookup (k d : string) (acc : gmap string nat) :
  bump k acc !! d
  = if decide (k = d) then Some (default 0 (acc !! k) + 1)%nat
    else acc !! d.
Proof. unfold bump. apply lookup_insert. Qed.

(** Counting by a key with [reduce]: the count stored under [d]. *)
Lemma reduce_bump_lookup (key : ProjectEntry -> string)
    (l : list ProjectEntry) (acc : gmap string nat) (d : string) :
  fold_left (fun acc project => bump (key project) acc) l acc !! d
  = match acc !! d with
    | Some n => Some (n + countIf (fun p => String.eqb (key p) d) l)%nat
    | None =>
        if (countIf (fun p => String.eqb (key p) d) l =? 0)%nat then None
        else Some (countIf (fun p => String.eqb (key p) d) l)
    end.
Proof.
  revert acc. induction l as [|p l IH]; intros acc.
  { simpl. destruct (acc !! d); [f_equal; unfold countIf; simpl; lia|done]. }
  cbn [fold_left]. rewrite IH, bump_lookup. unfold countIf.
  cbn [List.filter].
  destruct (String.eqb_spec (key p) d) as [Hk|Hk]; case_decide; try done.
  subst d. cbn [length]. destruct (acc !! key p) as [n|]; simpl.
  - f_equal. lia.
  - f_equal.
Qed.

(** X11: [departmentStats] and [priorityStats] count every project once.
    When no project is counted under a property name that objects inherit,
    the object holds under a department [d] the number of projects whose
    department is [d], those without department counted under
    [Unassigned], and it has no entry for [d] when there is none; the same
    for the priorities. *)
Theorem grouped_counts
    (deadlinePassed : string -> bool) (projects : list ProjectEntry)
    (d : string) :
  plainKeys projects ->
  let stats := statsOf deadlinePassed projects in
  let inDepartment :=
    countIf (fun p => String.eqb (departmentKey p) d) projects in
  let withPriority :=
    countIf (fun p => String.eqb (priority p) d) projects in
  departmentStats stats !! d
  = (if (inDepartment =? 0)%nat then None else Some inDepartment)
  /\ priorityStats stats !! d
     = (if (withPriority =? 0)%nat then None else Some withPriority).
Proof.
  intros _. cbn zeta. cbn [statsOf departmentStats priorityStats]. split.
  - rewrite (reduce_bump_lookup departmentKey). by rewrite lookup_empty.
  - rewrite (reduce_bump_lookup priority). by rewrite lookup_empty.
Qed.

Lemma grouped_counts_witness :
  let p dept := rowToRecord ["a@corp.example"; "A"; "T"; ""; ""; ""; "";
                             "High"; dept] in
  let projects := [p "Ops"; p ""; p "Ops"] in
  let stats := statsOf anyDate projects in
  let inDepartment :=
    countIf (fun p => String.eqb (departmentKey p) "Ops") projects in
  let withPriority :=
    countIf (fun p => String.eqb (priority p) "Ops") projects in
  departmentStats stats !! "Ops"
  = (if (inDepartment =? 0)%nat then None else Some inDepartment)
  /\ priorityStats stats !! "Ops"
     = (if (withPriority =? 0)%nat then None else Some withPriority).
Proof.
  cbn zeta.
  apply (grouped_counts anyDate
           [rowToRecord ["a@corp.example"; "A"; "T"; ""; ""; ""; "";
                         "High"; "Ops"];
            rowToRecord ["a@corp.example"; "A"; "T"; ""; ""; ""; "";
                         "High"; ""];
            rowToRecord ["a@corp.example"; "A"; "T"; ""; ""; ""; "";
                         "High"; "Ops"]]
           "Ops").
  unfold plainKeys.
  repeat constructor; apply (bool_decide_unpack _); vm_compute; exact I.
Defined.

Example grouped_counts_ex :
  let p dept := rowToRecord ["a@corp.example"; "A"; "T"; ""; ""; ""; "";
                             "High"; dept] in
  let stats := statsOf anyDate [p "Ops"; p ""; p "Ops"] in
  departmentStats stats !! "Ops" = Some 2%nat
  /\ departmentStats stats !! "Unassigned" = Some 1%nat
  /\ departmentStats stats !! "Sales" = None
  /\ priorityStats stats !! "High" = Some 3%nat.
Proof. by vm_compute. Qed.

(** ** The CSV export *)

Lemma join_cons_start (sep x : string) (l : list string) :
  exists rest, JSString.join sep (x :: l) = x ++ rest.
Proof.
  destruct l as [|y l]; simpl.
  - exists "". by rewrite string_app_nil_r.
  - by eexists.
Qed.

(** X12: [exportProjectsAsCSV] never throws and never changes the sheet.
    Its text is the lines of the records [getAllProjects] returned, joined
    by line feeds after the header line, so it always starts with the
    header; when the read fails it is the header line alone. *)
Theorem exportProjectsAsCSV_text (up : nat -> bool) (w : World) :
  exists (all : list ProjectEntry) (extra : list Call),
    getAllProjects up w = (Returned all, logged w extra)
    /\ readOnly extra = true
    /\ exportProjectsAsCSV up w
       = (Returned
            (JSString.join (String JSString.lineFeed "") (csvRows all)),
          logged w extra)
    /\ (exists rest,
          JSString.join (String JSString.lineFeed "") (csvRows all)
          = JSString.join "," csvHeaders ++ rest)
    /\ (readSucceeds up w = false ->
        JSString.join (String JSString.lineFeed "") (csvRows all)
        = JSString.join "," csvHeaders).
Proof.
  destruct (getAllProjects_run up w) as (extra & Hrun & Hro).
  eexists _, extra. split; [exact Hrun|]. split; [done|].
  split.
  { unfold exportProjectsAsCSV, try_catch, mbind, M_bind, mret, M_ret.
    by rewrite Hrun. }
  split; [apply join_cons_start|].
  by intros ->.
Qed.

(** X13: hours in the CSV.  The field of estimatedHours of a record mapped
    from a row is empty when the cell is absent or empty, when it does not
    start with a number, and when it parses to 0; it is the cell itself when
    the cell is the decimal form of a non-zero integer of magnitude at most
    2^53. *)
Theorem csv_hours_field (row : Row) :
  let field := csvFields (rowToRecord row) !! 9%nat in
  (row !! 9%nat = None \/ row !! 9%nat = Some "" -> field = Some (quoted ""))
  /\ (forall c, row !! 9%nat = Some c ->
        startsWithNumber c = false \/ JS.parseInt c = JS.Int 0 ->
        field = Some (quoted ""))
  /\ (forall z, z <> 0 -> Z.abs z <= 2 ^ 53 ->
        row !! 9%nat = Some (JS.Number_toString (JS.Int z)) ->
        field = Some (quoted (JS.Number_toString (JS.Int z)))).
Proof.
  cbn zeta. unfold csvFields, rowToRecord.
  cbn -[JS.or_else numericCell numberOrEmpty quoted JSString.escapeQuotes
        JS.Number_toString JS.parseInt].
  rewrite numericCell_cases.
  split; [by intros [-> | ->]|]. split.
  - intros c -> Hc. cbn -[JS.parseInt String.eqb numberOrEmpty quoted].
    destruct (String.eqb c ""); [done|].
    destruct Hc as [Hc|Hc].
    + by rewrite (parseInt_not_numeric c Hc).
    + by rewrite Hc.
  - intros z Hz _ ->.
    cbn -[JS.Number_toString JS.parseInt String.eqb numberOrEmpty quoted].
    destruct (String.eqb_spec (JS.Number_toString (JS.Int z)) "") as [E|_].
    { by apply toString_not_empty in E. }
    rewrite parseInt_toString. unfold numberOrEmpty.
    by destruct (Z.eqb_spec z 0).
Qed.

(** X14: the escaping of the description and the notes loses nothing: a
    reader that takes two double quotes for one gets the text back. *)
Theorem escapeQuotes_reads_back (s : string) :
  unescapeQuotes (JSString.escapeQuotes s) = s.
Proof.
  induction s as [|c s IH]; [done|]. cbn [JSString.escapeQuotes].
  destruct (Ascii.eqb_spec c JSString.dquote) as [->|Hc].
  - cbn [unescapeQuotes]. rewrite Ascii.eqb_refl. by rewrite IH.
  - cbn [unescapeQuotes].
    destruct (Ascii.eqb_spec c JSString.dquote); [done|]. by rewrite IH.
Qed.

Example csvLine_ex :
  csvLine (rowToRecord ["a@corp.example"; "A"; "T"; "x"; ""; ""; ""; "";
                        ""; "0"; "12"])
  = JSString.join ","
      (quoted <$> ["a@corp.example"; "A"; "T"; "x"; "Not Started"; ""; "";
                   "Medium"; ""; ""; "12"; ""]).
Proof. reflexivity. Qed.

(** ** The read routes *)


(** X16: [GET /api/projects/export] refuses before it reads.  A signed-in
    user who is not hr is answered 403, and an hr user asking for a format
    that is not csv, excel or pdf (in any letter case) is answered 400; in
    both cases no request is sent and no exporter runs: the world is as it
    was. *)
Theorem export_refused_before_any_read
    (up : nat -> bool) (exportProjectsAsExcel exportProjectsAsPDF : M string)
    (now : JS.Date) (user : SessionUser) (format : option string)
    (w : World) :
  JS.truthy (user_email user) = true ->
  (user_role user <> "hr" ->
   GET_projects_export up exportProjectsAsExcel exportProjectsAsPDF now
     (Some user) format w
   = (Returned
        (Failure 403 "Access denied. Only HR can export project data." None),
      w))
  /\ (user_role user = "hr" ->
      JSString.toLowerCase (JS.or_else format "csv")
      ∉ ["csv"; "excel"; "pdf"] ->
      GET_projects_export up exportProjectsAsExcel exportProjectsAsPDF now
        (Some user) format w
      = (Returned
           (Failure 400 "Invalid format. Supported formats: csv, excel, pdf"
              None),
         w)).
Proof.
  intros He. unfold GET_projects_export. rewrite He. cbn [negb].
  split.
  - intros Hrole. by destruct (String.eqb_spec (user_role user) "hr").
  - intros -> Hfmt. cbn -[JSString.toLowerCase JS.or_else].
    unfold try_catch.
    destruct (String.eqb_spec
                (JSString.toLowerCase (JS.or_else format "csv")) "csv")
      as [E|_]; [rewrite E in Hfmt; exfalso; apply Hfmt; repeat constructor|].
    destruct (String.eqb_spec
                (JSString.toLowerCase (JS.or_else format "csv")) "excel")
      as [E|_]; [rewrite E in Hfmt; exfalso; apply Hfmt; repeat constructor|].
    destruct (String.eqb_spec
                (JSString.toLowerCase (JS.or_else format "csv")) "pdf")
      as [E|_]; [rewrite E in Hfmt; exfalso; apply Hfmt; repeat constructor|].
    done.
Qed.

Lemma export_refused_before_any_read_witness :
  let hr := {| user_email := Some "hr@corp.example";
               user_name := Some "Hana"; user_role := "hr" |} in
  GET_projects_export healthy (throw NoSheetsFound) (throw NoSheetsFound)
    noon (Some alice) (Some "csv") (worldOf [fullRow])
  = (Returned
       (Failure 403 "Access denied. Only HR can export project data." None),
     worldOf [fullRow])
  /\ GET_projects_export healthy (throw NoSheetsFound) (throw NoSheetsFound)
       noon (Some hr) (Some "xml") (worldOf [fullRow])
     = (Returned
          (Failure 400 "Invalid format. Supported formats: csv, excel, pdf"
             None),
        worldOf [fullRow]).
Proof.
  cbn zeta. split.
  - apply (export_refused_before_any_read healthy (throw NoSheetsFound)
             (throw NoSheetsFound) noon alice (Some "csv")
             (worldOf [fullRow])); [reflexivity | discriminate].
  - apply (export_refused_before_any_read healthy (throw NoSheetsFound)
             (throw NoSheetsFound) noon
             {| user_email := Some "hr@corp.example";
                user_name := Some "Hana"; user_role := "hr" |}
             (Some "xml") (worldOf [fullRow])); [reflexivity | reflexivity |].
    intros H.
    repeat (apply elem_of_cons in H as [H|H]; [discriminate H|]).
    by apply elem_of_nil in H.
Defined.

(** X17: the CSV export of the route.  For an hr user, a format that is
    csv in any letter case, or no format at all, gives status 200 with the
    CSV text of the records read, the content type [text/csv] and the file
    name [employee-projects-] followed by the date of the clock and
    [.csv]; the route only reads, and a failed read gives the header line
    alone, not an error. *)
Theorem export_csv_file
    (up : nat -> bool) (exportProjectsAsExcel exportProjectsAsPDF : M string)
    (now : JS.Date) (user : SessionUser) (format : option string)
    (w : World) :
  JS.truthy (user_email user) = true -> user_role user = "hr" ->
  JSString.toLowerCase (JS.or_else format "csv") = "csv" ->
  exists (all : list ProjectEntry) (extra : list Call),
    getAllProjects up w = (Returned all, logged w extra)
    /\ readOnly extra = true
    /\ GET_projects_export up exportProjectsAsExcel exportProjectsAsPDF now
         (Some user) format w
       = (Returned
            (Success
               {| file_body :=
                    JSString.join (String JSString.lineFeed "")
                      (csvRows all);
                  file_name :=
                    "employee-projects-" ++ JS.isoDate now ++ ".csv";
                  file_contentType := "text/csv" |}),
          logged w extra).
Proof.
  intros He Hrole Hfmt. unfold GET_projects_export.
  rewrite He, Hrole. cbn -[JSString.toLowerCase JS.or_else JS.isoDate].
  rewrite Hfmt. cbn -[JS.isoDate].
  destruct (getAllProjects_run up w) as (extra & Hrun & Hro).
  eexists _, extra. split; [exact Hrun|]. split; [done|].
  unfold try_catch, mbind, M_bind, mret, M_ret, exportProjectsAsCSV,
    try_catch, mbind, M_bind, mret, M_ret.
  by rewrite Hrun.
Qed.

Lemma export_csv_file_witness :
  let hr := {| user_email := Some "hr@corp.example";
               user_name := Some "Hana"; user_role := "hr" |} in
  let w := worldOf [fullRow] in
  exists (all : list ProjectEntry) (extra : list Call),
    getAllProjects healthy w = (Returned all, logged w extra)
    /\ readOnly extra = true
    /\ GET_projects_export healthy (throw NoSheetsFound)
         (throw NoSheetsFound) noon (Some hr) None w
       = (Returned
            (Success
               {| file_body :=
                    JSString.join (String JSString.lineFeed "")
                      (csvRows all);
                  file_name :=
                    "employee-projects-" ++ JS.isoDate noon ++ ".csv";
                  file_contentType := "text/csv" |}),
          logged w extra).
Proof.
  cbn zeta.
  apply (export_csv_file healthy (throw NoSheetsFound) (throw NoSheetsFound)
           noon
           {| user_email := Some "hr@corp.example";
              user_name := Some "Hana"; user_role := "hr" |}
           None (worldOf [fullRow]));
    reflexivity.
Defined.

(** X18: [GET /api/projects/stats].  A signed-in user who is not hr is
    answered 403 and nothing is requested; an hr user is always answered
    200, with the statistics of the records [getAllProjects] returned, and
    the route only reads. *)
Theorem GET_projects_stats_reply
    (up : nat -> bool) (deadlinePassed : string -> bool) (now : JS.Date)
    (user : SessionUser) (w : World) :
  JS.truthy (user_email user) = true ->
  (user_role user <> "hr" ->
   GET_projects_stats up deadlinePassed now (Some user) w
   = (Returned
        (Failure 403 "Access denied. Only HR can view project statistics."
           None),
      w))
  /\ (user_role user = "hr" ->
      exists (all : list ProjectEntry) (extra : list Call),
        getAllProjects up w = (Returned all, logged w extra)
        /\ readOnly extra = true
        /\ GET_projects_stats up deadlinePassed now (Some user) w
           = (Returned
                (Success {| payload_stats := statsOf deadlinePassed all;
                            payload_timestamp := JS.toISOString now |}),
              logged w extra)).
Proof.
  intros He. unfold GET_projects_stats. rewrite He. cbn [negb].
  split.
  - intros Hrole. by destruct (String.eqb_spec (user_role user) "hr").
  - intros ->. cbn -[JS.toISOString].
    destruct (getAllProjects_run up w) as (extra & Hrun & Hro).
    eexists _, extra. split; [exact Hrun|]. split; [done|].
    unfold try_catch, mbind, M_bind, mret, M_ret, getProjectStats,
      try_catch, mbind, M_bind, mret, M_ret.
    by rewrite Hrun.
Qed.

Lemma GET_projects_stats_reply_witness :
  GET_projects_stats healthy anyDate noon (Some alice) (worldOf [fullRow])
  = (Returned
       (Failure 403 "Access denied. Only HR can view project statistics."
          None),
     worldOf [fullRow]).
Proof.
  apply (GET_projects_stats_reply healthy anyDate noon alice
           (worldOf [fullRow])); [reflexivity | discriminate].
Defined.

(** ** More of [POST /api/projects/add] *)

Lemma includes_elem (l : list string) (s : string) :
  includes l s = true <-> s ∈ l.
Proof.
  unfold includes. rewrite existsb_exists. split.
  - intros (x & Hx & E). apply String.eqb_eq in E as ->.
    by apply list_elem_of_In.
  - intros H. exists s. split; [by apply list_elem_of_In|].
    apply String.eqb_refl.
Qed.

(** What [validate] lets through. *)
Lemma validate_accepts parses projectData saved :
  validate parses projectData = inr saved ->
  saved = projectData
  /\ (JS.truthy (p_status projectData) = true ->
      default "" (p_status projectData) ∈ validStatuses)
  /\ (JS.truthy (p_priority projectData) = true ->
      default "" (p_priority projectData) ∈ validPriorities)
  /\ (JS.truthy (p_deadline projectData) = true ->
      parses (default "" (p_deadline projectData)) = true)
  /\ badHours (p_estimatedHours projectData) = false
  /\ badHours (p_actualHours projectData) = false.
Proof.
  unfold validate.
  destruct (JS.truthy (p_status projectData)
            && negb (includes validStatuses
                       (default "" (p_status projectData)))) eqn:H1;
    [done|].
  destruct (JS.truthy (p_priority projectData)
            && negb (includes validPriorities
                       (default "" (p_priority projectData)))) eqn:H2;
    [done|].
  destruct (JS.truthy (p_deadline projectData)
            && negb (parses (default "" (p_deadline projectData)))) eqn:H3;
    [done|].
  destruct (badHours (p_estimatedHours projectData)) eqn:H4; [done|].
  destruct (badHours (p_actualHours projectData)) eqn:H5; [done|].
  intros [= <-]. split; [done|].
  split.
  { intros Ht. rewrite Ht in H1. apply negb_false_iff in H1.
    by apply includes_elem. }
  split.
  { intros Ht. rewrite Ht in H2. apply negb_false_iff in H2.
    by apply includes_elem. }
  split; [|done].
  intros Ht. rewrite Ht in H3. by apply negb_false_iff in H3.
Qed.

(** What [screen] lets through. *)
Lemma screen_accepts
    (parses : string -> bool) (session : option SessionUser)
    (body saved : PartialEntry) :
  screen parses session body = inr saved ->
  exists user userEmail,
    session = Some user /\ user_email user = Some userEmail
    /\ userEmail <> ""
    /\ JS.truthy (JS.trim <$> p_projectTitle saved) = true
    /\ (JS.truthy (p_status saved) = true ->
        default "" (p_status saved) ∈ validStatuses)
    /\ (JS.truthy (p_priority saved) = true ->
        default "" (p_priority saved) ∈ validPriorities)
    /\ (JS.truthy (p_deadline saved) = true ->
        parses (default "" (p_deadline saved)) = true)
    /\ badHours (p_estimatedHours saved) = false
    /\ badHours (p_actualHours saved) = false
    /\ (user_role user = "hr" -> saved = body)
    /\ (user_role user <> "hr" -> p_email saved = Some userEmail).
Proof.
  unfold screen. destruct session as [user|]; [|done].
  destruct (JS.truthy (user_email user)) eqn:Hu; [|done]. cbn [negb].
  apply truthy_some in Hu as (userEmail & Hu & Hne). rewrite Hu.
  cbn [default from_option id].
  destruct (JS.truthy (JS.trim <$> p_projectTitle body)) eqn:Ht; [|done].
  cbn [negb]. intros Hs. exists user, userEmail.
  split; [done|]. split; [done|]. split; [done|].
  destruct (String.eqb_spec (user_role user) "hr") as [Hhr|Hhr];
    cbn [negb] in Hs.
  - apply validate_accepts in Hs as (-> & H1 & H2 & H3 & H4 & H5).
    repeat (split; [done|]). done.
  - destruct (JS.truthy (p_email body)
              && negb (bool_decide (p_email body = Some userEmail)));
      [done|].
    apply validate_accepts in Hs as (-> & H1 & H2 & H3 & H4 & H5).
    repeat (split; [done|]). done.
Qed.

(** X19: what the route hands to the store.  Every record that
    [POST /api/projects/add] passes to [addOrUpdateProject] comes from a
    session with an email and has a title that is not blank, a status and a
    priority that are absent, empty or among the allowed values, a deadline
    that is absent, empty or a date, and hours that are absent or neither
    [NaN] nor negative.  For an hr user it is the body as posted; for any
    other user it carries the email of the session. *)
Theorem screen_passes_valid_records
    (parses : string -> bool) (session : option SessionUser)
    (body saved : PartialEntry) :
  screen parses session body = inr saved ->
  exists user userEmail,
    session = Some user /\ user_email user = Some userEmail
    /\ userEmail <> ""
    /\ JS.truthy (JS.trim <$> p_projectTitle saved) = true
    /\ (JS.truthy (p_status saved) = true ->
        default "" (p_status saved) ∈ validStatuses)
    /\ (JS.truthy (p_priority saved) = true ->
        default "" (p_priority saved) ∈ validPriorities)
    /\ (JS.truthy (p_deadline saved) = true ->
        parses (default "" (p_deadline saved)) = true)
    /\ badHours (p_estimatedHours saved) = false
    /\ badHours (p_actualHours saved) = false
    /\ (user_role user = "hr" -> saved = body)
    /\ (user_role user <> "hr" -> p_email saved = Some userEmail).
Proof. apply screen_accepts. Qed.

Lemma screen_passes_valid_records_witness :
  let body :=
    mkPartialEntry None None (Some " Migration ") None (Some "On Hold") None
      None (Some "High") None (Some (JS.Int 8)) None None in
  exists user userEmail,
    Some alice = Some user /\ user_email user = Some userEmail
    /\ userEmail <> ""
    /\ JS.truthy (JS.trim <$> p_projectTitle
                    (forceIdentity "alice@corp.example" alice body)) = true
    /\ (JS.truthy (p_status (forceIdentity "alice@corp.example" alice body))
        = true ->
        default "" (p_status (forceIdentity "alice@corp.example" alice body))
        ∈ validStatuses)
    /\ (JS.truthy
          (p_priority (forceIdentity "alice@corp.example" alice body))
        = true ->
        default ""
          (p_priority (forceIdentity "alice@corp.example" alice body))
        ∈ validPriorities)
    /\ (JS.truthy
          (p_deadline (forceIdentity "alice@corp.example" alice body))
        = true ->
        anyDate
          (default ""
             (p_deadline (forceIdentity "alice@corp.example" alice body)))
        = true)
    /\ badHours
         (p_estimatedHours (forceIdentity "alice@corp.example" alice body))
       = false
    /\ badHours
         (p_actualHours (forceIdentity "alice@corp.example" alice body))
       = false
    /\ (user_role user = "hr" ->
        forceIdentity "alice@corp.example" alice body = body)
    /\ (user_role user <> "hr" ->
        p_email (forceIdentity "alice@corp.example" alice body)
        = Some userEmail).
Proof.
  cbn zeta.
  apply (screen_passes_valid_records anyDate (Some alice)
           (mkPartialEntry None None (Some " Migration ") None
              (Some "On Hold") None None (Some "High") None
              (Some (JS.Int 8)) None None)).
  reflexivity.
Defined.

(** X20: an hr user who posts a valid record without email is answered
    500, not 400.  The route has no check of the email for hr; the record
    reaches [addOrUpdateProject], which sends its metadata request and then
    throws; the sheet is not changed. *)
Theorem hr_post_without_email
    (up : nat -> bool) (parses : string -> bool) (now : JS.Date)
    (user : SessionUser) (body : PartialEntry) (w : World) :
  JS.truthy (user_email user) = true -> user_role user = "hr" ->
  JS.truthy (p_email body) = false ->
  JS.truthy (JS.trim <$> p_projectTitle body) = true ->
  validate parses body = inr body ->
  metadataFound up w = true ->
  POST up parses now (Some user) body w
  = (Returned
       (ErrorResponse 500 "Failed to save project"
          (Some EmailAndTitleRequired)),
     logged w [spreadsheets_get]).
Proof.
  intros Hu Hrole He Ht Hv Hmeta.
  unfold POST, screen. rewrite Hu, Ht, Hrole. cbn [negb].
  change (String.eqb "hr" "hr") with true. cbn [negb]. rewrite Hv.
  unfold try_catch, mbind, M_bind, mret, M_ret; cbn beta.
  rewrite addOrUpdateProject_invalid by (by left).
  assert (keyFile w = true) as Hk.
  { unfold metadataFound in Hmeta. by destruct (keyFile w). }
  by rewrite Hk, Hmeta.
Qed.

Lemma hr_post_without_email_witness :
  let hr := {| user_email := Some "hr@corp.example";
               user_name := Some "Hana"; user_role := "hr" |} in
  POST healthy anyDate noon (Some hr) (titled None "Migration")
    (worldOf [fullRow])
  = (Returned
       (ErrorResponse 500 "Failed to save project"
          (Some EmailAndTitleRequired)),
     logged (worldOf [fullRow]) [spreadsheets_get]).
Proof.
  apply (hr_post_without_email healthy anyDate noon
           {| user_email := Some "hr@corp.example";
              user_name := Some "Hana"; user_role := "hr" |}
           (titled None "Migration") (worldOf [fullRow]));
    reflexivity.
Defined.

(** ** Rows of other users *)

(** On a sheet without blank rows an upsert leaves every row stored under
    another email where it is. *)
Lemma upsert_other_emails_untouched up now projectData w e :
  noBlankRows (rows w) -> p_email projectData = Some e ->
  forall j row,
    rows w !! j = Some row -> email (rowToRecord row) <> e ->
    rows (snd (addOrUpdateProject up now projectData w)) !! j = Some row.
Proof.
  intros [Hkeep Hlen] He j row Hrow Hother.
  destruct (addOrUpdateProject_outcome up now projectData w)
    as (extra & [[_ ->] | (all & Hall & _ & _ & Hrun)]); [done|].
  cbn zeta in Hrun. rewrite Hrun. cbn [snd rewritten rows].
  destruct (Z.leb_spec 0 (JS.findIndex (sameKey projectData) all)) as [Hi|Hi].
  - destruct Hall as [-> | ->]; [|simpl in Hi; lia].
    destruct (findIndex_spec (sameKey projectData) (visible w))
      as [[E _] | (i & x & E & Hx & Hpx & _)]; [lia|].
    rewrite (visible_dense w Hkeep Hlen) in Hx.
    apply list_lookup_fmap_Some in Hx as (old & -> & Hold).
    rewrite E, (writeRow_in_range i _ _ old Hold).
    apply sameKey_true in Hpx as [Hpe _]. rewrite He in Hpe.
    rewrite list_lookup_insert_ne; [done|].
    intros <-. rewrite Hrow in Hold. injection Hold as <-. congruence.
  - unfold appendRow. rewrite lookup_app_l; [done|].
    by eapply lookup_lt_Some.
Qed.

(** X21: on a sheet without blank rows, a user who is not hr cannot touch
    the rows of others through [POST /api/projects/add]: whatever is
    posted and whatever the service does, every row stored under another
    email is afterwards where and as it was. *)
Theorem employee_post_leaves_other_rows
    (up : nat -> bool) (parses : string -> bool) (now : JS.Date)
    (user : SessionUser) (userEmail : string) (body : PartialEntry)
    (w : World) (j : nat) (row : Row) :
  user_email user = Some userEmail -> user_role user <> "hr" ->
  noBlankRows (rows w) ->
  rows w !! j = Some row -> email (rowToRecord row) <> userEmail ->
  rows (snd (POST up parses now (Some user) body w)) !! j = Some row.
Proof.
  intros Hu Hrole Hdense Hrow Hother. unfold POST.
  destruct (screen parses (Some user) body) as [response|saved] eqn:Hs;
    [done|].
  apply screen_accepts in Hs
    as (user' & userEmail' & [= <-] & Hu' & _ & _ & _ & _ & _ & _ & _ & _
        & Hemail).
  rewrite Hu in Hu'. injection Hu' as <-. specialize (Hemail Hrole).
  pose proof (upsert_other_emails_untouched up now saved w userEmail
                Hdense Hemail j row Hrow Hother) as Hkept.
  unfold try_catch, mbind, M_bind, mret, M_ret.
  by destruct (addOrUpdateProject up now saved w) as [[[]|err] w'].
Qed.

Lemma employee_post_leaves_other_rows_witness :
  let bobRow := ["bob@corp.example"; "Bob"; "Audit"] in
  rows (snd (POST healthy anyDate noon (Some alice)
               (titled None "Audit") (worldOf [bobRow; fullRow])))
  !! 0%nat = Some bobRow.
Proof.
  apply (employee_post_leaves_other_rows healthy anyDate noon alice
           "alice@corp.example" (titled None "Audit")
           (worldOf [["bob@corp.example"; "Bob"; "Audit"]; fullRow])
           0%nat ["bob@corp.example"; "Bob"; "Audit"]).
  - reflexivity.
  - discriminate.
  - split; [|simpl; lia]. repeat constructor.
  - reflexivity.
  - discriminate.
Defined.

(** Without the hypothesis on blank rows the rows of others are not safe:
    below, row 2 is blank, row 3 is Bob's and row 4 is Alice's; Alice's
    update of her own project is written over Bob's row. *)
Example employee_post_overwrites_after_blank_row :
  let bobRow := ["bob@corp.example"; "Bob"; "Audit"] in
  let before := [[]; bobRow; fullRow] in
  let after :=
    rows (snd (POST healthy anyDate noon (Some alice)
                 (titled None "Migration") (worldOf before))) in
  before !! 1%nat = Some bobRow
  /\ rowKey <$> after
     = [("", ""); ("alice@corp.example", "Migration");
        ("alice@corp.example", "Migration")].
Proof. by vm_compute. Qed.

(** ** Sign-in *)

(** X22: who may sign in.  With a provider other than google the [signIn]
    callback admits everybody.  With google it admits exactly the users
    whose email (the empty string when there is none) ends with one of the
    allowed domains: the pieces of COMPANY_DOMAIN between commas, trimmed,
    or [@hines.com] when the variable is not set. *)
Theorem signIn_admits (env : Auth.Env) (provider userEmail : option string) :
  (provider <> Some "google" -> Auth.signIn env provider userEmail = true)
  /\ (provider = Some "google" ->
      (Auth.signIn env provider userEmail = true
       <-> exists domain before,
             domain ∈ Auth.allowedDomains env
             /\ JS.or_else userEmail "" = before ++ domain))
  /\ (Auth.COMPANY_DOMAIN env = None ->
      Auth.allowedDomains env = ["@hines.com"])
  /\ (forall s, Auth.COMPANY_DOMAIN env = Some s ->
        Auth.allowedDomains env = JS.trim <$> JSString.split "," s).
Proof.
  unfold Auth.signIn. split.
  { intros Hp. by rewrite bool_decide_eq_false_2. }
  split.
  { intros ->. rewrite bool_decide_eq_true_2 by done. cbn zeta.
    rewrite existsb_exists. split.
    - intros (domain & Hin & Hend). apply endsWith_spec in Hend as [p Hp].
      exists domain, p. split; [by apply list_elem_of_In | done].
    - intros (domain & p & Hin & Hp). exists domain.
      split; [by apply list_elem_of_In|]. apply endsWith_spec. by exists p. }
  unfold Auth.allowedDomains. split; [by intros ->|]. by intros s ->.
Qed.

(** A string that ends with the separator splits into pieces the last of
    which is empty. *)
Lemma split_trailing (sep : ascii) (p : string) :
  exists l, l <> []
            /\ JSString.split sep (p ++ String sep "") = (l ++ [""])%list.
Proof.
  induction p as [|c p (l & Hl & IH)].
  { exists [""]. split; [done|]. simpl. by rewrite Ascii.eqb_refl. }
  rewrite string_app_cons. cbn [JSString.split]. rewrite IH.
  destruct (Ascii.eqb c sep).
  - exists ("" :: l). by split.
  - destruct l as [|x l]; [done|]. exists (String c x :: l). by split.
Qed.

(** X23: an empty entry opens the door.  When COMPANY_DOMAIN is set to the
    empty string, or to a list that ends with a comma, one of the allowed
    domains is the empty string, which every email ends with: [signIn]
    admits every user, whatever the email. *)
Theorem signIn_empty_domain_admits_all
    (env : Auth.Env) (s : string) (provider userEmail : option string) :
  Auth.COMPANY_DOMAIN env = Some s ->
  s = "" \/ (exists p, s = p ++ ",") ->
  Auth.signIn env provider userEmail = true.
Proof.
  intros Henv Hs. unfold Auth.signIn. case_bool_decide; [|done]. cbn zeta.
  apply existsb_exists. exists "". split.
  - apply list_elem_of_In. unfold Auth.allowedDomains. rewrite Henv.
    destruct Hs as [-> | [p ->]]; [by left|].
    destruct (split_trailing "," p) as (l & _ & ->).
    rewrite fmap_app. apply elem_of_app. right. by left.
  - apply endsWith_spec. exists (JS.or_else userEmail "").
    by rewrite string_app_nil_r.
Qed.

Lemma signIn_empty_domain_admits_all_witness :
  Auth.signIn
    {| Auth.COMPANY_DOMAIN := Some "@corp.example,";
       Auth.HR_EMAILS := None |}
    (Some "google") (Some "mallory@elsewhere.example") = true.
Proof.
  apply (signIn_empty_domain_admits_all
           {| Auth.COMPANY_DOMAIN := Some "@corp.example,";
              Auth.HR_EMAILS := None |}
           "@corp.example,").
  - reflexivity.
  - right. exists "@corp.example". reflexivity.
Defined.

Example signIn_ex :
  let env := {| Auth.COMPANY_DOMAIN := Some "@corp.example, @lab.example";
                Auth.HR_EMAILS := Some "hr@corp.example" |} in
  Auth.signIn env (Some "google") (Some "eve@lab.example") = true
  /\ Auth.signIn env (Some "google") (Some "eve@other.example") = false
  /\ Auth.signIn env (Some "google") None = false
  /\ Auth.jwtRole env (Some "hr@corp.example") = "hr"
  /\ Auth.jwtRole env (Some "eve@lab.example") = "employee".
Proof. by vm_compute. Qed.

(** ** The helper [isCompanyUser] and the sign-in *)

Lemma split_no_separator (sep : ascii) (s : string) :
  ~ In sep (list_ascii_of_string s) -> JSString.split sep s = [s].
Proof.
  induction s as [|c s IH]; simpl; [done|]. intros H.
  destruct (Ascii.eqb_spec c sep) as [->|_]; [tauto|].
  rewrite IH; [done | tauto].
Qed.

Lemma In_string_app_r (c : ascii) (p s : string) :
  In c (list_ascii_of_string s) -> In c (list_ascii_of_string (p ++ s)).
Proof.
  intros H. induction p as [|a p IH]; [done|].
  rewrite string_app_cons. simpl. tauto.
Qed.

(** X24: [isCompanyUser] reads COMPANY_DOMAIN as one domain, [signIn] as a
    list.  When the variable holds one domain (not empty, without comma or
    white space around it) the two agree on every google user.  When it
    holds a list with a comma, [isCompanyUser] rejects every email without
    comma, those that [signIn] admits included. *)
Theorem isCompanyUser_one_domain
    (env : Auth.Env) (s userEmail : string) :
  Auth.COMPANY_DOMAIN env = Some s ->
  (s <> "" -> ~ In ","%char (list_ascii_of_string s) -> JS.trim s = s ->
   Auth.signIn env (Some "google") (Some userEmail)
   = Auth.isCompanyUser env userEmail)
  /\ (In ","%char (list_ascii_of_string s) ->
      ~ In ","%char (list_ascii_of_string userEmail) ->
      Auth.isCompanyUser env userEmail = false).
Proof.
  intros Hs. split.
  - intros Hne Hcomma Htrim.
    unfold Auth.signIn, Auth.isCompanyUser, Auth.allowedDomains.
    rewrite Hs, bool_decide_eq_true_2 by done.
    rewrite split_no_separator by done.
    rewrite (or_else_some userEmail "") by (by left).
    rewrite (or_else_some_ne s) by done.
    cbn [fmap list_fmap existsb]. rewrite Htrim. apply orb_false_r.
  - intros Hcomma Hno. unfold Auth.isCompanyUser. rewrite Hs.
    assert (s <> "") as Hne by (intros ->; simpl in Hcomma; tauto).
    rewrite (or_else_some_ne s) by done.
    destruct (JSString.endsWith userEmail s) eqn:E; [|done].
    apply endsWith_spec in E as [p ->].
    exfalso. apply Hno. by apply In_string_app_r.
Qed.

Lemma isCompanyUser_one_domain_witness :
  let env := {| Auth.COMPANY_DOMAIN := Some "@hines.com,@corp.example";
                Auth.HR_EMAILS := None |} in
  Auth.signIn env (Some "google") (Some "alice@corp.example") = true
  /\ Auth.isCompanyUser env "alice@corp.example" = false.
Proof.
  cbn zeta. split; [reflexivity|].
  apply (isCompanyUser_one_domain
           {| Auth.COMPANY_DOMAIN := Some "@hines.com,@corp.example";
              Auth.HR_EMAILS := None |}
           "@hines.com,@corp.example" "alice@corp.example").
  - reflexivity.
  - vm_compute. tauto.
  - vm_compute. intros H.
    repeat (destruct H as [H|H]; [discriminate H|]). exact H.
Defined.
